(** * The stock ticker agent tools

    A shallow embedding of [stock_monitoring/stock_ticker_agent/agent.py]:
    the five tool functions [identify_ticker], [ticker_news], [ticker_price],
    [ticker_price_change] and [ticker_analysis], together with the fragment
    of Python's value semantics they rely on (dictionaries in insertion
    order, subscripting, [in], [len], [float], [int], string methods,
    exceptions and [try]/[except]).

    Conventions of the model:
    - a Python [str] is a [string] whose characters are the code points
      U+0000..U+00FF;
    - a Python [float] is a binary64 primitive float;
    - an exception is a value of [exn]: the class name, the text that
      [str(e)] yields, and whether it is an instance of [Exception] (which
      [KeyboardInterrupt], [SystemExit] and the like are not);
    - the three external providers (yfinance, the HTTP client and the news
      client) and the builtins that parse or print numbers are variables of
      the section [Tools]: every theorem holds for all of their behaviours. *)

From Stdlib Require Import ZArith NArith String Ascii List Bool Lia.
From Stdlib Require Import Floats.PrimFloat Floats.SpecFloat Floats.FloatOps.
From Stdlib Require Import DecimalString.
Import ListNotations.

Local Open Scope string_scope.

(** ** Python strings *)

Module PyStr.

(** [str.lower] on one code point below 256: the ASCII capitals and the
    Latin-1 capitals (U+00C0..U+00DE without the multiplication sign). *)
Definition lower_char (c : ascii) : ascii :=
  let n := N_of_ascii c in
  if ((65 <=? n) && (n <=? 90) || (192 <=? n) && (n <=? 222) && negb (n =? 215))%N
  then ascii_of_N (n + 32) else c.

(** [str.isspace] on one code point below 256. *)
Definition is_space (c : ascii) : bool :=
  let n := N_of_ascii c in
  ((9 <=? n) && (n <=? 13) || (28 <=? n) && (n <=? 32)
   || (n =? 133) || (n =? 160))%N.

Fixpoint lower (s : string) : string :=
  match s with
  | EmptyString => EmptyString
  | String c s' => String (lower_char c) (lower s')
  end.

(** [old in s] for two strings. *)
Fixpoint contains (old s : string) : bool :=
  prefix old s
  || match s with
     | EmptyString => false
     | String _ s' => contains old s'
     end.

(** [str.replace] scans from the left and replaces the occurrences that do
    not overlap.  [skip] counts the characters of the occurrence just
    replaced that are still to be passed over. *)
Fixpoint replace_from (old new : string) (skip : nat) (s : string) : string :=
  match s with
  | EmptyString => EmptyString
  | String c s' =>
      match skip with
      | S k => replace_from old new k s'
      | O =>
          if prefix old s
          then new ++ replace_from old new (String.length old - 1) s'
          else String c (replace_from old new O s')
      end
  end.

Fixpoint intersperse (new s : string) : string :=
  match s with
  | EmptyString => EmptyString
  | String c s' => String c (new ++ intersperse new s')
  end.

Definition replace (old new s : string) : string :=
  match old with
  | EmptyString => new ++ intersperse new s
  | _ => replace_from old new 0 s
  end.

Fixpoint lstrip (s : string) : string :=
  match s with
  | EmptyString => EmptyString
  | String c s' => if is_space c then lstrip s' else s
  end.

Fixpoint rstrip (s : string) : string :=
  match s with
  | EmptyString => EmptyString
  | String c s' =>
      match rstrip s' with
      | EmptyString => if is_space c then EmptyString else String c EmptyString
      | r => String c r
      end
  end.

Definition strip (s : string) : string := rstrip (lstrip s).

End PyStr.

(** Line 33 of [identify_ticker]:
    [query = query.lower().replace("stock", "").strip()]. *)
Definition clean_query (query : string) : string :=
  PyStr.strip (PyStr.replace "stock" "" (PyStr.lower query)).

(** ** Python values, exceptions and results *)

(** An exception object: its class, the text of [str(e)], and whether
    [isinstance(e, Exception)] holds.  [KeyboardInterrupt], [SystemExit] and
    [GeneratorExit] derive from [BaseException] only. *)
Record exn : Type :=
  Exn { exn_class : string; exn_str : string; exn_is_exception : bool }.

(** What evaluating a piece of Python code gives: a value, or a raised
    exception. *)
Inductive result (A : Type) : Type :=
| Returns (a : A)
| Raises (e : exn).

Arguments Returns {A} a.
Arguments Raises {A} e.

Definition bind {A B : Type} (m : result A) (k : A -> result B) : result B :=
  match m with
  | Returns a => k a
  | Raises e => Raises e
  end.

Notation "x <- m ;; k" := (bind m (fun x => k))
  (at level 61, m at next level, right associativity).

Fixpoint map_m {A B : Type} (f : A -> result B) (l : list A) : result (list B) :=
  match l with
  | [] => Returns []
  | a :: l' => b <- f a ;; bs <- map_m f l' ;; Returns (b :: bs)
  end.

(** [try: body  except Exception as e: handler].  The clause catches the
    instances of [Exception]; any other exception goes on to the caller. *)
Definition try_except {A : Type} (body : result A) (handler : exn -> result A) : result A :=
  match body with
  | Returns a => Returns a
  | Raises e => if exn_is_exception e then handler e else Raises e
  end.

(** The values that JSON decoding and the tool arguments range over.  A
    dictionary keeps its items in insertion order and its keys are strings. *)
#[warnings="-register-all"]
Inductive pyval : Type :=
| PNone
| PBool (b : bool)
| PInt (z : Z)
| PFloat (f : float)
| PStr (s : string)
| PList (l : list pyval)
| PDict (d : list (string * pyval)).

Definition type_name (v : pyval) : string :=
  match v with
  | PNone => "NoneType"
  | PBool _ => "bool"
  | PInt _ => "int"
  | PFloat _ => "float"
  | PStr _ => "str"
  | PList _ => "list"
  | PDict _ => "dict"
  end.

Definition TypeError (msg : string) : exn := Exn "TypeError" msg true.
Definition KeyError (msg : string) : exn := Exn "KeyError" msg true.
Definition IndexError (msg : string) : exn := Exn "IndexError" msg true.
Definition ValueError (msg : string) : exn := Exn "ValueError" msg true.
Definition OverflowError (msg : string) : exn := Exn "OverflowError" msg true.
Definition AttributeError (msg : string) : exn := Exn "AttributeError" msg true.
Definition ZeroDivisionError (msg : string) : exn := Exn "ZeroDivisionError" msg true.

Fixpoint dict_get (k : string) (d : list (string * pyval)) : option pyval :=
  match d with
  | [] => None
  | (k', v) :: d' => if String.eqb k k' then Some v else dict_get k d'
  end.

Definition dict_keys (d : list (string * pyval)) : list string := map fst d.

(** [l[i]] on a sequence of length [length l]: a negative index counts from
    the end, an index outside the sequence gives [None]. *)
Definition seq_index {A : Type} (l : list A) (i : Z) : option A :=
  let n := Z.of_nat (List.length l) in
  let j := if (i <? 0)%Z then (i + n)%Z else i in
  if ((j <? 0) || (n <=? j))%Z then None else nth_error l (Z.to_nat j).

Definition dec_of_Z (z : Z) : string := NilZero.string_of_int (Z.to_int z).

(** ** Numbers *)

Module PyNum.

(** [int] to [float]: the nearest binary64, ties to even; an integer beyond
    the range has no float. *)
Definition float_of_Z (z : Z) : option float :=
  match binary_normalize prec emax z 0 false with
  | S754_infinity _ => None
  | sf => Some (SF2Prim sf)
  end.

(** [float] to [int]: truncation towards zero. *)
Definition trunc (f : float) : result Z :=
  match Prim2SF f with
  | S754_zero _ => Returns 0%Z
  | S754_finite s m e =>
      let a := Z.shiftl (Zpos m) e in
      Returns (if s then (- a)%Z else a)
  | S754_infinity _ =>
      Raises (OverflowError "cannot convert float infinity to integer")
  | S754_nan => Raises (ValueError "cannot convert float NaN to integer")
  end.

(** The integer nearest to [num / den], ties to even ([0 <= num], [0 < den]). *)
Definition round_half_even (num den : Z) : Z :=
  let q := (num / den)%Z in
  let r := (num mod den)%Z in
  match (2 * r ?= den)%Z with
  | Lt => q
  | Gt => (q + 1)%Z
  | Eq => if Z.even q then q else (q + 1)%Z
  end.

Definition two_digits (z : Z) : string :=
  if (z <? 10)%Z then "0" ++ dec_of_Z z else dec_of_Z z.

(** [format(f, ".2f")]: the exact value of [f] rounded to hundredths, ties
    to even. *)
Definition format_2f (f : float) : string :=
  match Prim2SF f with
  | S754_nan => "nan"
  | S754_infinity s => if s then "-inf" else "inf"
  | S754_zero s => if s then "-0.00" else "0.00"
  | S754_finite s m e =>
      let h := if (0 <=? e)%Z then (100 * Zpos m * 2 ^ e)%Z
               else round_half_even (100 * Zpos m) (2 ^ (- e)) in
      (if s then "-" else "")
        ++ dec_of_Z (h / 100) ++ "." ++ two_digits (h mod 100)
  end.

(** [a / b] on floats raises when the divisor is zero. *)
Definition truediv (a b : float) : result float :=
  if PrimFloat.eqb b 0%float
  then Raises (ZeroDivisionError "float division by zero")
  else Returns (PrimFloat.div a b).

End PyNum.

(** ** The environment of the tools *)

(** Everything the module takes from outside: the API key read at import,
    the three providers, and the builtins that print a value or read a
    number from text.  A provider call either returns the decoded value or
    raises.
    - [yf_Tickers q] is [yf.Tickers(q)]: [None] when the object has no
      attribute [tickers], otherwise the items of [tickers.tickers] in order,
      each symbol with what reading [ticker_obj.info] gives;
    - [requests_get_json url] is [requests.get(url)] followed by
      [response.json()];
    - [newsapi_get_everything q language sort_by page_size] is
      [newsapi.get_everything(...)];
    - [py_repr v] is [repr(v)];
    - [float_of_str s] and [int_of_str s] are [float(s)] and [int(s)] on a
      string, [None] when the text is not a number. *)
Record world : Type := World {
  ALPHA_VANTAGE_API_KEY : option string;
  yf_Tickers : string -> result (option (list (string * result pyval)));
  requests_get_json : string -> result pyval;
  newsapi_get_everything : string -> string -> string -> Z -> result pyval;
  py_repr : pyval -> string;
  float_of_str : string -> option float;
  int_of_str : string -> option Z
}.

Definition nl : string := String (ascii_of_N 10) EmptyString.

(** ["\n".join(lines)]. *)
Fixpoint join_lines (lines : list string) : string :=
  match lines with
  | [] => ""
  | [l] => l
  | l :: ls => l ++ nl ++ join_lines ls
  end.

Fixpoint str_chars (s : string) : list pyval :=
  match s with
  | EmptyString => []
  | String c s' => PStr (String c EmptyString) :: str_chars s'
  end.

(** The two shapes every tool returns. *)
Definition success_result (data : pyval) : pyval :=
  PDict [("status", PStr "success"); ("data", data)].

Definition error_result (error_message : string) : pyval :=
  PDict [("status", PStr "error"); ("error_message", PStr error_message)].

Section Tools.

Variable W : world.

(** *** Builtin operations *)

(** [str(v)], as an f-string field prints it. *)
Definition py_str (v : pyval) : string :=
  match v with
  | PStr s => s
  | _ => py_repr W v
  end.

(** [bool(v)]. *)
Definition py_truthy (v : pyval) : bool :=
  match v with
  | PNone => false
  | PBool b => b
  | PInt z => negb (z =? 0)%Z
  | PFloat f => negb (PrimFloat.eqb f 0%float)
  | PStr s => negb (String.eqb s "")
  | PList l => match l with [] => false | _ => true end
  | PDict d => match d with [] => false | _ => true end
  end.

(** [v == s] for a string literal [s]. *)
Definition py_eq_str (v : pyval) (s : string) : bool :=
  match v with
  | PStr s' => String.eqb s' s
  | _ => false
  end.

(** [k in v] for a string [k]. *)
Definition py_in (k : string) (v : pyval) : result bool :=
  match v with
  | PDict d => Returns (match dict_get k d with Some _ => true | None => false end)
  | PList l => Returns (existsb (fun x => py_eq_str x k) l)
  | PStr s => Returns (PyStr.contains k s)
  | _ => Raises (TypeError ("argument of type '" ++ type_name v ++ "' is not iterable"))
  end.

(** [v[k]] for a string [k]. *)
Definition py_getitem (v : pyval) (k : string) : result pyval :=
  match v with
  | PDict d =>
      match dict_get k d with
      | Some x => Returns x
      | None => Raises (KeyError (py_repr W (PStr k)))
      end
  | PList _ => Raises (TypeError "list indices must be integers or slices, not str")
  | PStr _ => Raises (TypeError "string indices must be integers, not 'str'")
  | _ => Raises (TypeError ("'" ++ type_name v ++ "' object is not subscriptable"))
  end.

(** [v[i]] for an integer [i]. *)
Definition py_index (v : pyval) (i : Z) : result pyval :=
  match v with
  | PList l =>
      match seq_index l i with
      | Some x => Returns x
      | None => Raises (IndexError "list index out of range")
      end
  | PStr s =>
      match seq_index (str_chars s) i with
      | Some x => Returns x
      | None => Raises (IndexError "string index out of range")
      end
  | PDict _ => Raises (KeyError (dec_of_Z i))
  | _ => Raises (TypeError ("'" ++ type_name v ++ "' object is not subscriptable"))
  end.

(** [v[:n]], as the sequence of its elements. *)
Definition py_slice_to (v : pyval) (n : nat) : result (list pyval) :=
  match v with
  | PList l => Returns (firstn n l)
  | PStr s => Returns (firstn n (str_chars s))
  | PDict _ => Raises (TypeError "unhashable type: 'slice'")
  | _ => Raises (TypeError ("'" ++ type_name v ++ "' object is not subscriptable"))
  end.

(** [len(v)]. *)
Definition py_len (v : pyval) : result Z :=
  match v with
  | PList l => Returns (Z.of_nat (List.length l))
  | PDict d => Returns (Z.of_nat (List.length d))
  | PStr s => Returns (Z.of_nat (String.length s))
  | _ => Raises (TypeError ("object of type '" ++ type_name v ++ "' has no len()"))
  end.

(** [list(v.keys())]. *)
Definition py_keys (v : pyval) : result (list string) :=
  match v with
  | PDict d => Returns (dict_keys d)
  | _ => Raises (AttributeError
                   ("'" ++ type_name v ++ "' object has no attribute 'keys'"))
  end.

Definition float_of_int (z : Z) : result float :=
  match PyNum.float_of_Z z with
  | Some f => Returns f
  | None => Raises (OverflowError "int too large to convert to float")
  end.

(** [float(v)]. *)
Definition py_float (v : pyval) : result float :=
  match v with
  | PFloat f => Returns f
  | PInt z => float_of_int z
  | PBool b => Returns (if b then 1%float else 0%float)
  | PStr s =>
      match float_of_str W s with
      | Some f => Returns f
      | None => Raises (ValueError
                          ("could not convert string to float: " ++ py_repr W v))
      end
  | _ => Raises (TypeError
                   ("float() argument must be a string or a real number, not '"
                      ++ type_name v ++ "'"))
  end.

(** [int(v)]. *)
Definition py_int (v : pyval) : result Z :=
  match v with
  | PInt z => Returns z
  | PBool b => Returns (if b then 1%Z else 0%Z)
  | PFloat f => PyNum.trunc f
  | PStr s =>
      match int_of_str W s with
      | Some z => Returns z
      | None => Raises (ValueError
                          ("invalid literal for int() with base 10: " ++ py_repr W v))
      end
  | _ => Raises (TypeError
                   ("int() argument must be a string, a bytes-like object or a real number, not '"
                      ++ type_name v ++ "'"))
  end.

(** [v > 0]. *)
Definition py_gt0 (v : pyval) : result bool :=
  match v with
  | PInt z => Returns (0 <? z)%Z
  | PBool b => Returns b
  | PFloat f => Returns (PrimFloat.ltb 0%float f)
  | _ => Raises (TypeError
                   ("'>' not supported between instances of '"
                      ++ type_name v ++ "' and 'int'"))
  end.

(** [abs(v)]. *)
Definition py_abs (v : pyval) : result pyval :=
  match v with
  | PInt z => Returns (PInt (Z.abs z))
  | PBool b => Returns (PInt (if b then 1%Z else 0%Z))
  | PFloat f => Returns (PFloat (PrimFloat.abs f))
  | _ => Raises (TypeError ("bad operand type for abs(): '" ++ type_name v ++ "'"))
  end.

(** [format(v, ".2f")]. *)
Definition py_format_2f (v : pyval) : result string :=
  match v with
  | PFloat f => Returns (PyNum.format_2f f)
  | PInt z => f <- float_of_int z ;; Returns (PyNum.format_2f f)
  | PBool b => Returns (if b then "1.00" else "0.00")
  | _ => Raises (TypeError
                   ("unsupported format string passed to "
                      ++ type_name v ++ ".__format__"))
  end.

(** An f-string field holding the API key: [None] prints as its name. *)
Definition api_key_text : string :=
  match ALPHA_VANTAGE_API_KEY W with
  | Some k => k
  | None => "None"
  end.

(** *** identify_ticker *)

(** One turn of the loop over [tickers.tickers.items()] (lines 39-50): the
    dictionary to return, or nothing when the candidate is passed over. *)
Definition try_candidate (symbol : string) (info_attr : result pyval)
  : result (option pyval) :=
  info <- info_attr ;;
  if py_truthy info then
    has_name <- py_in "longName" info ;;
    if has_name then
      long_name <- py_getitem info "longName" ;;
      Returns (Some (success_result
                       (PDict [("ticker", PStr symbol);
                               ("company_name", long_name)])))
    else Returns None
  else Returns None.

(** The loop of lines 38-50; the bare [except: continue] passes over a
    candidate whose lookup raises, whatever the exception is. *)
Fixpoint scan_candidates (items : list (string * result pyval)) : option pyval :=
  match items with
  | [] => None
  | (symbol, info_attr) :: rest =>
      match try_candidate symbol info_attr with
      | Returns (Some r) => Some r
      | Returns None => scan_candidates rest
      | Raises _ => scan_candidates rest
      end
  end.

Definition search_url (query : string) : string :=
  "https://www.alphavantage.co/query?function=SYMBOL_SEARCH&keywords="
    ++ query ++ "&apikey=" ++ api_key_text.

(** Lines 52-70: the Alpha Vantage symbol search. *)
Definition alpha_vantage_search (query : string) : result pyval :=
  data <- requests_get_json W (search_url query) ;;
  listed <- py_in "bestMatches" data ;;
  found <- (if listed
            then (matches <- py_getitem data "bestMatches" ;;
                  n <- py_len matches ;;
                  Returns (0 <? n)%Z)
            else Returns false) ;;
  if found then
    matches <- py_getitem data "bestMatches" ;;
    match_ <- py_index matches 0 ;;
    symbol <- py_getitem match_ "1. symbol" ;;
    name <- py_getitem match_ "2. name" ;;
    Returns (success_result (PDict [("ticker", symbol); ("company_name", name)]))
  else Returns (error_result "Could not find matching ticker symbol").

(** The body of the [try] (lines 32-70). *)
Definition identify_ticker_body (query : string) : result pyval :=
  let query := clean_query query in
  tickers <- yf_Tickers W query ;;
  match match tickers with
        | Some items => scan_candidates items
        | None => None
        end with
  | Some r => Returns r
  | None => alpha_vantage_search query
  end.

Definition identify_ticker (query : string) : result pyval :=
  try_except (identify_ticker_body query)
    (fun e => Returns (error_result ("Error in ticker identification: " ++ exn_str e))).

(** *** ticker_news *)

Definition ticker_news_body (ticker : string) : result pyval :=
  news <- newsapi_get_everything W (ticker ++ " stock") "en" "publishedAt" 5 ;;
  articles <- py_getitem news "articles" ;;
  Returns (success_result articles).

Definition ticker_news (ticker : string) : result pyval :=
  try_except (ticker_news_body ticker)
    (fun e => Returns (error_result ("Error fetching news: " ++ exn_str e))).

(** *** ticker_price *)

Definition quote_url (ticker : string) : string :=
  "https://www.alphavantage.co/query?function=GLOBAL_QUOTE&symbol="
    ++ ticker ++ "&apikey=" ++ api_key_text.

Definition ticker_price_body (ticker : string) : result pyval :=
  data <- requests_get_json W (quote_url ticker) ;;
  has_quote <- py_in "Global Quote" data ;;
  if has_quote then
    quote <- py_getitem data "Global Quote" ;;
    price <- (x <- py_getitem quote "05. price" ;; py_float x) ;;
    volume <- (x <- py_getitem quote "06. volume" ;; py_int x) ;;
    trading_day <- py_getitem quote "07. latest trading day" ;;
    previous_close <- (x <- py_getitem quote "08. previous close" ;; py_float x) ;;
    Returns (success_result
               (PDict [("price", PFloat price);
                       ("volume", PInt volume);
                       ("trading_day", trading_day);
                       ("previous_close", PFloat previous_close)]))
  else Returns (error_result "No price data available").

Definition ticker_price (ticker : string) : result pyval :=
  try_except (ticker_price_body ticker)
    (fun e => Returns (error_result ("Error fetching price: " ++ exn_str e))).

(** *** ticker_price_change *)

Definition daily_url (ticker : string) : string :=
  "https://www.alphavantage.co/query?function=TIME_SERIES_DAILY&symbol="
    ++ ticker ++ "&apikey=" ++ api_key_text.

(** [dates[i]] on the list of dates. *)
Definition date_at (dates : list string) (i : Z) : result string :=
  match seq_index dates i with
  | Some d => Returns d
  | None => Raises (IndexError "list index out of range")
  end.

(** Lines 141-149: the start and the end date of the window. *)
Definition select_window (timeframe : string) (dates : list string)
  : result (string * string) :=
  let len := Z.of_nat (List.length dates) in
  if String.eqb timeframe "today" then
    start_date <- date_at dates 1 ;;
    end_date <- date_at dates 0 ;;
    Returns (start_date, end_date)
  else if String.eqb timeframe "week" then
    start_date <- date_at dates (Z.min 7 (len - 1)) ;;
    end_date <- date_at dates 0 ;;
    Returns (start_date, end_date)
  else
    start_date <- date_at dates (Z.min 30 (len - 1)) ;;
    end_date <- date_at dates 0 ;;
    Returns (start_date, end_date).

(** [float(time_series[date]["4. close"])]. *)
Definition close_on (time_series : pyval) (date : string) : result float :=
  day <- py_getitem time_series date ;;
  close <- py_getitem day "4. close" ;;
  py_float close.

(** [((end_price - start_price) / start_price) * 100]. *)
Definition percent_change (start_price end_price : float) : result float :=
  ratio <- PyNum.truediv (PrimFloat.sub end_price start_price) start_price ;;
  Returns (PrimFloat.mul ratio 100%float).

Definition ticker_price_change_body (ticker timeframe : string) : result pyval :=
  data <- requests_get_json W (daily_url ticker) ;;
  has_series <- py_in "Time Series (Daily)" data ;;
  if has_series then
    time_series <- py_getitem data "Time Series (Daily)" ;;
    dates <- py_keys time_series ;;
    window <- select_window timeframe dates ;;
    let start_date := fst window in
    let end_date := snd window in
    start_price <- close_on time_series start_date ;;
    end_price <- close_on time_series end_date ;;
    change <- percent_change start_price end_price ;;
    Returns (success_result
               (PDict [("start_date", PStr start_date);
                       ("end_date", PStr end_date);
                       ("start_price", PFloat start_price);
                       ("end_price", PFloat end_price);
                       ("percent_change", PFloat change);
                       ("timeframe", PStr timeframe)]))
  else Returns (error_result "No historical data available").

Definition ticker_price_change (ticker timeframe : string) : result pyval :=
  try_except (ticker_price_change_body ticker timeframe)
    (fun e => Returns (error_result ("Error calculating price change: " ++ exn_str e))).

(** *** ticker_analysis *)

Definition news_header : string :=
  nl ++ "Recent news that might explain the movement:".

(** Lines 184-192: the lines the price block appends. *)
Definition price_lines (price_data : pyval) : result (list string) :=
  status <- py_getitem price_data "status" ;;
  if py_eq_str status "success" then
    price_info <- py_getitem price_data "data" ;;
    change <- py_getitem price_info "percent_change" ;;
    timeframe <- py_getitem price_info "timeframe" ;;
    rose <- py_gt0 change ;;
    if rose then
      size <- py_abs change ;;
      text <- py_format_2f size ;;
      Returns ["The stock has increased by " ++ text ++ "% over "
                 ++ py_str timeframe ++ "."]
    else
      size <- py_abs change ;;
      text <- py_format_2f size ;;
      Returns ["The stock has decreased by " ++ text ++ "% over "
                 ++ py_str timeframe ++ "."]
  else Returns [].

(** Line 198: one bullet. *)
Definition bullet (article : pyval) : result string :=
  title <- py_getitem article "title" ;;
  Returns ("- " ++ py_str title).

(** Lines 195-198: the lines the news block appends. *)
Definition news_lines (news_data : pyval) : result (list string) :=
  status <- py_getitem news_data "status" ;;
  some_news <- (if py_eq_str status "success"
                then (articles <- py_getitem news_data "data" ;;
                      n <- py_len articles ;;
                      Returns (0 <? n)%Z)
                else Returns false) ;;
  if some_news then
    articles <- py_getitem news_data "data" ;;
    first3 <- py_slice_to articles 3 ;;
    bullets <- map_m bullet first3 ;;
    Returns (news_header :: bullets)
  else Returns [].

Definition ticker_analysis_body (ticker : string) (news_data price_data : pyval)
  : result pyval :=
  from_price <- price_lines price_data ;;
  from_news <- news_lines news_data ;;
  let analysis := (from_price ++ from_news)%list in
  Returns (success_result (PDict [("analysis", PStr (join_lines analysis))])).

Definition ticker_analysis (ticker : string) (news_data price_data : pyval)
  : result pyval :=
  try_except (ticker_analysis_body ticker news_data price_data)
    (fun e => Returns (error_result ("Error in analysis: " ++ exn_str e))).

End Tools.

(** ** The result envelope *)

Definition has_key (k : string) (d : list (string * pyval)) : bool :=
  match dict_get k d with
  | Some _ => true
  | None => false
  end.

(** A [ToolResult]: a dictionary whose status is ["success"] and which has a
    [data] item and no [error_message] item, or whose status is ["error"] and
    which has an [error_message] string and no [data] item. *)
Definition tool_result (v : pyval) : Prop :=
  exists d, v = PDict d /\
    ((dict_get "status" d = Some (PStr "success")
      /\ has_key "data" d = true /\ has_key "error_message" d = false)
     \/ (dict_get "status" d = Some (PStr "error")
         /\ (exists m, dict_get "error_message" d = Some (PStr m))
         /\ has_key "data" d = false)).

(** The data of a successful [ticker_price_change]. *)
Definition price_change_data (start_date end_date : string)
    (start_price end_price change : float) (timeframe : string) : pyval :=
  PDict [("start_date", PStr start_date);
         ("end_date", PStr end_date);
         ("start_price", PFloat start_price);
         ("end_price", PFloat end_price);
         ("percent_change", PFloat change);
         ("timeframe", PStr timeframe)].

(** The same result with the [timeframe] item of its data set to [tf]. *)
Definition set_timeframe (tf : string) (v : pyval) : pyval :=
  match v with
  | PDict [status; (k, PDict items)] =>
      if String.eqb k "data"
      then PDict [status;
                  (k, PDict (map (fun kv => if String.eqb (fst kv) "timeframe"
                                            then (fst kv, PStr tf) else kv)
                               items))]
      else v
  | _ => v
  end.

(** An article the news block can print: a dictionary with a title. *)
Definition titled (article : pyval) : Prop :=
  exists d t, article = PDict d /\ dict_get "title" d = Some t.

(** A news result as [ticker_news] builds it from a well-formed answer. *)
Definition news_tool_result (news_data : pyval) : Prop :=
  (exists message, news_data = error_result message)
  \/ (exists articles, news_data = success_result (PList articles)
                       /\ Forall titled (firstn 3 articles)).

(** ** Sample environments *)

Module Sample.

Fixpoint digits_value (acc : Z) (s : string) : option Z :=
  match s with
  | EmptyString => Some acc
  | String c s' =>
      let n := N_of_ascii c in
      if ((48 <=? n) && (n <=? 57))%N
      then digits_value (10 * acc + Z.of_N (n - 48)) s'
      else None
  end.

(** [int(s)] on a plain run of decimal digits. *)
Definition int_of_digits (s : string) : option Z :=
  match s with
  | EmptyString => None
  | _ => digits_value 0 s
  end.

Fixpoint split_point (s : string) : string * option string :=
  match s with
  | EmptyString => (EmptyString, None)
  | String c s' =>
      if Ascii.eqb c "."%char then (EmptyString, Some s')
      else let '(a, b) := split_point s' in (String c a, b)
  end.

(** [float(s)] on a numeral [ddd] or [ddd.ddd] of at most 15 digits: both
    the digits and the power of ten are floats, so their quotient is the
    nearest float to the numeral. *)
Definition float_of_numeral (s : string) : option float :=
  let '(whole, frac) := split_point s in
  let frac := match frac with Some f => f | None => EmptyString end in
  let all := whole ++ frac in
  if (String.length all =? 0)%nat || (15 <? String.length all)%nat then None
  else
    match digits_value 0 all with
    | Some n =>
        match PyNum.float_of_Z n,
              PyNum.float_of_Z (10 ^ Z.of_nat (String.length frac)) with
        | Some a, Some b => Some (PrimFloat.div a b)
        | _, _ => None
        end
    | None => None
    end.

(** [repr] on [None], booleans, integers and strings without quotes or
    escapes, which is all the samples print. *)
Definition repr (v : pyval) : string :=
  match v with
  | PNone => "None"
  | PBool b => if b then "True" else "False"
  | PInt z => dec_of_Z z
  | PStr s => "'" ++ s ++ "'"
  | _ => "<object>"
  end.

(** An environment whose HTTP client, news client and ticker search answer
    every call in the same way. *)
Definition world_of (http : result pyval) (news : result pyval)
    (tickers : result (option (list (string * result pyval)))) : world :=
  {| ALPHA_VANTAGE_API_KEY := Some "demo";
     yf_Tickers := fun _ => tickers;
     requests_get_json := fun _ => http;
     newsapi_get_everything := fun _ _ _ _ => news;
     py_repr := repr;
     float_of_str := float_of_numeral;
     int_of_str := int_of_digits |}.

Definition day (close : string) : pyval :=
  PDict [("1. open", PStr close); ("2. high", PStr close);
         ("3. low", PStr close); ("4. close", PStr close);
         ("5. volume", PStr "1000")].

Definition daily (series : list (string * pyval)) : pyval :=
  PDict [("Meta Data", PDict [("2. Symbol", PStr "TSLA")]);
         ("Time Series (Daily)", PDict series)].

Definition unreachable : exn := Exn "ConnectionError" "connection refused" true.


Definition series3 : list (string * pyval) :=
  [("2024-01-10", day "110.0000");
   ("2024-01-09", day "100.0000");
   ("2024-01-08", day "88.0000")].

(** A provider that serves a three-day series. *)
Definition three_days : world :=
  world_of (Returns (daily series3)) (Raises unreachable) (Raises unreachable).

(** A provider that serves a single day. *)
Definition one_day : world :=
  world_of (Returns (daily [("2024-01-10", day "110.0000")]))
    (Raises unreachable) (Raises unreachable).

(** No provider can be reached. *)
Definition offline : world :=
  world_of (Raises unreachable) (Raises unreachable) (Raises unreachable).


Definition article (title : string) : pyval :=
  PDict [("source", PDict [("name", PStr "Wire")]);
         ("title", PStr title);
         ("publishedAt", PStr "2024-01-10T09:00:00Z")].

Definition five_articles : pyval :=
  success_result
    (PList [article "One"; article "Two"; article "Three";
            article "Four"; article "Five"]).

Definition flat_today : pyval :=
  success_result
    (price_change_data "2024-01-09" "2024-01-10" 100 100 0 "today").

End Sample.

(** ** Further notions used by the properties *)

(** What reading [ticker_obj.info] must give for the candidate to be
    accepted: a dictionary with the key ["longName"]. *)
Definition named (info_attr : result pyval) : Prop :=
  exists d name, info_attr = Returns (PDict d) /\ dict_get "longName" d = Some name.

(** The data of a successful [identify_ticker]. *)
Definition ticker_data (ticker company_name : pyval) : pyval :=
  PDict [("ticker", ticker); ("company_name", company_name)].

(** The data of a successful [ticker_price]. *)
Definition quote_data (price : float) (volume : Z) (trading_day : pyval)
    (previous_close : float) : pyval :=
  PDict [("price", PFloat price);
         ("volume", PInt volume);
         ("trading_day", trading_day);
         ("previous_close", PFloat previous_close)].

(** The sentence of the price block for a change [f] over [timeframe]. *)
Definition price_sentence (f : float) (timeframe : string) : string :=
  "The stock has "
    ++ (if PrimFloat.ltb 0 f then "increased" else "decreased")
    ++ " by " ++ PyNum.format_2f (PrimFloat.abs f) ++ "% over " ++ timeframe ++ ".".

(** The title of an article, when it is a dictionary that has one. *)
Definition title_of (article : pyval) : option pyval :=
  match article with
  | PDict d => dict_get "title" d
  | _ => None
  end.

(** More sample data. *)
Module Sample2.

Definition quote (price volume day previous : string) : pyval :=
  PDict [("Global Quote",
          PDict [("01. symbol", PStr "TSLA");
                 ("05. price", PStr price);
                 ("06. volume", PStr volume);
                 ("07. latest trading day", PStr day);
                 ("08. previous close", PStr previous)])].

Definition http (answer : pyval) : world :=
  Sample.world_of (Returns answer) (Raises Sample.unreachable) (Returns None).

Definition news (answer : pyval) : world :=
  Sample.world_of (Raises Sample.unreachable) (Returns answer) (Returns None).

Definition candidates (items : list (string * result pyval)) : world :=
  Sample.world_of (Raises Sample.unreachable) (Raises Sample.unreachable)
    (Returns (Some items)).

Definition matches : pyval :=
  PDict [("bestMatches",
          PList [PDict [("1. symbol", PStr "TSLA"); ("2. name", PStr "Tesla Inc")];
                 PDict [("1. symbol", PStr "TL0.DEX"); ("2. name", PStr "Tesla Inc")]])].

End Sample2.

(** * Properties *)

(** ** Sample runs *)

Example clean_tesla : clean_query "Tesla stock" = "tesla".
Proof. reflexivity. Qed.

Example clean_padded :
  clean_query "  What about NVIDIA Stock?  " = "what about nvidia ?".
Proof. reflexivity. Qed.

Example replace_leaves_new_occurrence :
  PyStr.replace "stock" "" "sstocktock" = "stock".
Proof. reflexivity. Qed.

(** A candidate whose lookup raises is passed over, one whose metadata has
    no long name too; the first with a long name is returned. *)
Example identify_ticker_skips_failures :
  identify_ticker
    (Sample.world_of (Raises Sample.unreachable) (Raises Sample.unreachable)
       (Returns (Some [("TSLA", Raises Sample.unreachable);
                       ("TL0.DE", Returns (PDict [("symbol", PStr "TL0.DE")]));
                       ("TSLA.MX", Returns (PDict [("longName", PStr "Tesla, Inc.")]))])))
    "Tesla stock"
  = Returns (success_result
               (PDict [("ticker", PStr "TSLA.MX");
                       ("company_name", PStr "Tesla, Inc.")])).
Proof. reflexivity. Qed.

Example ticker_analysis_sample :
  ticker_analysis Sample.offline "TSLA" Sample.five_articles Sample.flat_today
  = Returns (success_result
               (PDict [("analysis",
                        PStr (join_lines
                                ["The stock has decreased by 0.00% over today.";
                                 news_header; "- One"; "- Two"; "- Three"]))])).
Proof. reflexivity. Qed.

Example ticker_analysis_malformed_price :
  ticker_analysis Sample.offline "TSLA" Sample.five_articles PNone
  = Returns (error_result
               "Error in analysis: 'NoneType' object is not subscriptable").
Proof. reflexivity. Qed.

(** ** String lemmas *)

Module PyStrFacts.
Import PyStr.

Lemma lower_char_idem (c : ascii) : lower_char (lower_char c) = lower_char c.
Proof. destruct c as [[] [] [] [] [] [] [] []]; vm_compute; reflexivity. Qed.

Lemma lower_idem (s : string) : lower (lower s) = lower s.
Proof.
  induction s as [|c s IH]; simpl; [reflexivity|].
  now rewrite lower_char_idem, IH.
Qed.

Lemma lower_cons_fixed c s :
  lower (String c s) = String c s -> lower_char c = c /\ lower s = s.
Proof. simpl; intros H; injection H; auto. Qed.

Lemma lower_app (a b : string) : lower (a ++ b) = lower a ++ lower b.
Proof. induction a as [|c a IH]; simpl; [reflexivity|now rewrite IH]. Qed.

Lemma lower_replace_from old new s :
  lower new = new -> lower s = s ->
  forall k, lower (replace_from old new k s) = replace_from old new k s.
Proof.
  intros Hnew.
  induction s as [|c s IH]; intros Hs k; [reflexivity|].
  apply lower_cons_fixed in Hs as [Hc Hs].
  cbn [replace_from].
  destruct k as [|k]; [|now apply IH].
  destruct (prefix old (String c s)).
  - rewrite lower_app, Hnew, IH by assumption. reflexivity.
  - cbn [lower]. now rewrite Hc, IH.
Qed.

Lemma lower_lstrip s : lower s = s -> lower (lstrip s) = lstrip s.
Proof.
  induction s as [|c s IH]; intros Hs; [reflexivity|].
  cbn [lstrip]. destruct (is_space c); [|assumption].
  apply lower_cons_fixed in Hs as [_ Hs]. now apply IH.
Qed.

Lemma lower_rstrip s : lower s = s -> lower (rstrip s) = rstrip s.
Proof.
  induction s as [|c s IH]; intros Hs; [reflexivity|].
  apply lower_cons_fixed in Hs as [Hc Hs].
  specialize (IH Hs). cbn [rstrip].
  destruct (rstrip s) as [|a r].
  - destruct (is_space c); [reflexivity|]. cbn [lower]. now rewrite Hc.
  - cbn [lower] in *. now rewrite Hc, IH.
Qed.

Lemma lower_strip s : lower s = s -> lower (strip s) = strip s.
Proof. intros Hs. unfold strip. now apply lower_rstrip, lower_lstrip. Qed.

(** Nothing to replace, nothing changes. *)
Lemma replace_from_absent old new s :
  contains old s = false -> replace_from old new 0 s = s.
Proof.
  induction s as [|c s IH]; intros H; [reflexivity|].
  cbn [contains] in H. apply orb_false_iff in H as [Hp Hc].
  cbn [replace_from]. rewrite Hp. now rewrite IH.
Qed.

Lemma length_replace_from old k s :
  String.length (replace_from old "" k s) <= String.length s.
Proof.
  revert k. induction s as [|c s IH]; intros k; [apply le_n|].
  cbn [replace_from String.length].
  destruct k as [|k]; [|specialize (IH k); lia].
  destruct (prefix old (String c s)).
  - cbn [append]. specialize (IH (String.length old - 1)). lia.
  - cbn [String.length]. specialize (IH 0). lia.
Qed.

(** Removing an occurrence that is there shortens the string. *)
Lemma length_replace_from_present old s :
  old <> "" -> contains old s = true ->
  String.length (replace_from old "" 0 s) < String.length s.
Proof.
  intros Hold.
  induction s as [|c s IH]; intros H.
  - destruct old; [contradiction|discriminate H].
  - cbn [contains] in H. cbn [replace_from String.length].
    destruct (prefix old (String c s)) eqn:Hp.
    + cbn [append].
      pose proof (length_replace_from old (String.length old - 1) s). lia.
    + cbn [orb] in H. cbn [String.length]. specialize (IH H). lia.
Qed.

Lemma length_lstrip s : String.length (lstrip s) <= String.length s.
Proof.
  induction s as [|c s IH]; [apply le_n|].
  cbn [lstrip]. destruct (is_space c); cbn [String.length]; lia.
Qed.

Lemma length_rstrip s : String.length (rstrip s) <= String.length s.
Proof.
  induction s as [|c s IH]; [apply le_n|].
  cbn [rstrip]. destruct (rstrip s) as [|a r].
  - destruct (is_space c); cbn [String.length]; lia.
  - cbn [String.length] in *. lia.
Qed.

Lemma length_strip s : String.length (strip s) <= String.length s.
Proof.
  unfold strip.
  pose proof (length_rstrip (lstrip s)). pose proof (length_lstrip s). lia.
Qed.

Lemma lstrip_head s :
  lstrip s = "" \/ exists c t, lstrip s = String c t /\ is_space c = false.
Proof.
  induction s as [|c s IH]; [now left|].
  cbn [lstrip]. destruct (is_space c) eqn:Hc; [exact IH|].
  right. now exists c, s.
Qed.

Lemma rstrip_keeps_head c s :
  is_space c = false -> rstrip (String c s) = String c (rstrip s).
Proof.
  intros Hc. cbn [rstrip]. destruct (rstrip s); [now rewrite Hc|reflexivity].
Qed.

Lemma rstrip_idem s : rstrip (rstrip s) = rstrip s.
Proof.
  induction s as [|c s IH]; [reflexivity|].
  cbn [rstrip]. destruct (rstrip s) as [|a r] eqn:Hr.
  - destruct (is_space c) eqn:Hc; [reflexivity|].
    cbn [rstrip]. now rewrite Hc.
  - change (rstrip (String c (String a r)))
      with (match rstrip (String a r) with
            | "" => if is_space c then "" else String c ""
            | r' => String c r'
            end).
    now rewrite IH.
Qed.

Lemma lstrip_strip s : lstrip (strip s) = strip s.
Proof.
  unfold strip. destruct (lstrip_head s) as [H | (c & t & H & Hc)]; rewrite H.
  - reflexivity.
  - rewrite (rstrip_keeps_head _ _ Hc). cbn [lstrip]. now rewrite Hc.
Qed.

Lemma strip_idem s : strip (strip s) = strip s.
Proof.
  unfold strip at 1. rewrite lstrip_strip. unfold strip. apply rstrip_idem.
Qed.

End PyStrFacts.

Lemma clean_query_lower q : PyStr.lower (clean_query q) = clean_query q.
Proof.
  unfold clean_query. apply PyStrFacts.lower_strip.
  change (PyStr.replace "stock" "" (PyStr.lower q))
    with (PyStr.replace_from "stock" "" 0 (PyStr.lower q)).
  apply PyStrFacts.lower_replace_from; [reflexivity|apply PyStrFacts.lower_idem].
Qed.

Lemma clean_query_again q :
  clean_query (clean_query q)
  = PyStr.strip (PyStr.replace_from "stock" "" 0 (clean_query q)).
Proof. unfold clean_query at 1. now rewrite clean_query_lower. Qed.

(** C6, as stated, fails: removing one occurrence of "stock" can put a new one
    together, so cleaning ["sstocktock"] gives ["stock"], and cleaning that
    gives the empty string. *)
Lemma clean_query_not_idempotent :
  clean_query (clean_query "sstocktock") <> clean_query "sstocktock".
Proof. vm_compute. discriminate. Qed.

(** C6, amended: cleaning an already cleaned query gives the same string
    exactly when the cleaned query no longer contains "stock". *)
Theorem clean_query_idempotent_iff (query : string) :
  PyStr.contains "stock" (clean_query query) = false
  <-> clean_query (clean_query query) = clean_query query.
Proof.
  rewrite clean_query_again. split.
  - intros H. rewrite (PyStrFacts.replace_from_absent _ _ _ H).
    unfold clean_query. apply PyStrFacts.strip_idem.
  - intros H. destruct (PyStr.contains "stock" (clean_query query)) eqn:Hc;
      [exfalso|reflexivity].
    apply PyStrFacts.length_replace_from_present in Hc; [|discriminate].
    pose proof (PyStrFacts.length_strip
                  (PyStr.replace_from "stock" "" 0 (clean_query query))) as Hs.
    rewrite H in Hs. lia.
Qed.

(** ** The envelope and the exception boundary *)

Lemma success_is_tool_result data : tool_result (success_result data).
Proof. eexists; split; [reflexivity|]. left. repeat split. Qed.

Lemma error_is_tool_result message : tool_result (error_result message).
Proof. eexists; split; [reflexivity|]. right. repeat split. now exists message. Qed.

Create HintDb tools.

#[local] Hint Resolve success_is_tool_result error_is_tool_result : tools.

(** Splits on the next call of a body that either returns or raises. *)
Ltac split_calls H :=
  repeat match type of H with
         | context [match ?x with _ => _ end] =>
             lazymatch x with
             | context [match _ with _ => _ end] => fail
             | _ => destruct x eqn:?; try discriminate H
             end
         end.

Ltac returned H :=
  unfold bind in H; split_calls H; injection H as <-; auto with tools.

Lemma scan_candidates_tool_result W items r :
  scan_candidates W items = Some r -> tool_result r.
Proof.
  induction items as [|[symbol info_attr] rest IH]; intros H; [discriminate|].
  cbn [scan_candidates] in H.
  destruct (try_candidate W symbol info_attr) as [[r'|]|e] eqn:Ht; auto.
  injection H as <-. unfold try_candidate in Ht. returned Ht.
Qed.

Lemma identify_ticker_body_tool_result W query v :
  identify_ticker_body W query = Returns v -> tool_result v.
Proof.
  unfold identify_ticker_body. intros H. unfold bind at 1 in H.
  destruct (yf_Tickers W (clean_query query)) as [tickers|e]; [|discriminate].
  destruct (match tickers with Some items => scan_candidates W items | None => None end)
    as [r|] eqn:Hs.
  - injection H as <-. destruct tickers as [items|]; [|discriminate].
    eapply scan_candidates_tool_result; eauto.
  - unfold alpha_vantage_search in H. returned H.
Qed.

Lemma ticker_news_body_tool_result W ticker v :
  ticker_news_body W ticker = Returns v -> tool_result v.
Proof. unfold ticker_news_body. intros H. returned H. Qed.

Lemma ticker_price_body_tool_result W ticker v :
  ticker_price_body W ticker = Returns v -> tool_result v.
Proof. unfold ticker_price_body. intros H. returned H. Qed.

Lemma ticker_price_change_body_tool_result W ticker timeframe v :
  ticker_price_change_body W ticker timeframe = Returns v -> tool_result v.
Proof. unfold ticker_price_change_body. intros H. returned H. Qed.

Lemma ticker_analysis_body_tool_result W ticker news_data price_data v :
  ticker_analysis_body W ticker news_data price_data = Returns v -> tool_result v.
Proof. unfold ticker_analysis_body. intros H. returned H. Qed.

(** *** What the builtin operations raise

    Every exception that a subscript, a membership test, a conversion or the
    arithmetic raises is an instance of [Exception]. *)

Ltac raises_exception :=
  let H := fresh "H" in
  intros H;
  repeat match type of H with
         | context [match ?x with _ => _ end] =>
             lazymatch x with
             | context [match _ with _ => _ end] => fail
             | _ => destruct x
             end
         end;
  try discriminate H; injection H as <-; reflexivity.

Lemma py_in_raises k v e : py_in k v = Raises e -> exn_is_exception e = true.
Proof. unfold py_in. raises_exception. Qed.

Lemma py_getitem_raises W v k e :
  py_getitem W v k = Raises e -> exn_is_exception e = true.
Proof. unfold py_getitem. raises_exception. Qed.

Lemma py_index_raises v i e : py_index v i = Raises e -> exn_is_exception e = true.
Proof. unfold py_index. raises_exception. Qed.

Lemma py_slice_to_raises v n e :
  py_slice_to v n = Raises e -> exn_is_exception e = true.
Proof. unfold py_slice_to. raises_exception. Qed.

Lemma py_len_raises v e : py_len v = Raises e -> exn_is_exception e = true.
Proof. unfold py_len. raises_exception. Qed.

Lemma py_keys_raises v e : py_keys v = Raises e -> exn_is_exception e = true.
Proof. unfold py_keys. raises_exception. Qed.

Lemma float_of_int_raises z e : float_of_int z = Raises e -> exn_is_exception e = true.
Proof. unfold float_of_int. raises_exception. Qed.

Lemma py_float_raises W v e : py_float W v = Raises e -> exn_is_exception e = true.
Proof. unfold py_float, float_of_int. raises_exception. Qed.

Lemma py_int_raises W v e : py_int W v = Raises e -> exn_is_exception e = true.
Proof. unfold py_int, PyNum.trunc. raises_exception. Qed.

Lemma py_gt0_raises v e : py_gt0 v = Raises e -> exn_is_exception e = true.
Proof. unfold py_gt0. raises_exception. Qed.

Lemma py_abs_raises v e : py_abs v = Raises e -> exn_is_exception e = true.
Proof. unfold py_abs. raises_exception. Qed.

Lemma py_format_2f_raises v e :
  py_format_2f v = Raises e -> exn_is_exception e = true.
Proof. unfold py_format_2f, bind, float_of_int. raises_exception. Qed.

Lemma date_at_raises dates i e : date_at dates i = Raises e -> exn_is_exception e = true.
Proof. unfold date_at. raises_exception. Qed.

Lemma percent_change_raises a b e :
  percent_change a b = Raises e -> exn_is_exception e = true.
Proof. unfold percent_change, bind, PyNum.truediv. raises_exception. Qed.

Create HintDb raises.

#[local] Hint Resolve py_in_raises py_getitem_raises py_index_raises
  py_slice_to_raises py_len_raises py_keys_raises float_of_int_raises
  py_float_raises py_int_raises py_gt0_raises py_abs_raises py_format_2f_raises
  date_at_raises percent_change_raises : raises.

(** Takes a body that raised through its calls, down to the call that
    raised. *)
Ltac raised H :=
  unfold bind in H; split_calls H; try (injection H as <-);
  first [ solve [eauto with raises]
        | left; solve [eauto with raises]
        | right; assumption ].

Lemma select_window_raises timeframe dates e :
  select_window timeframe dates = Raises e -> exn_is_exception e = true.
Proof. unfold select_window. intros H. raised H. Qed.

Lemma close_on_raises W series date e :
  close_on W series date = Raises e -> exn_is_exception e = true.
Proof. unfold close_on. intros H. raised H. Qed.

Lemma bullet_raises W article e :
  bullet W article = Raises e -> exn_is_exception e = true.
Proof. unfold bullet. intros H. raised H. Qed.

Lemma bullets_raise W articles e :
  map_m (bullet W) articles = Raises e -> exn_is_exception e = true.
Proof.
  induction articles as [|a l IH]; [discriminate|].
  cbn [map_m]. unfold bind.
  destruct (bullet W a) eqn:Hb.
  - destruct (map_m (bullet W) l); [discriminate|].
    intros H. injection H as <-. now apply IH.
  - intros H. injection H as <-. eapply bullet_raises; eauto.
Qed.

#[local] Hint Resolve select_window_raises close_on_raises bullets_raise : raises.

Lemma price_lines_raises W price_data e :
  price_lines W price_data = Raises e -> exn_is_exception e = true.
Proof. unfold price_lines. intros H. raised H. Qed.

Lemma news_lines_raises W news_data e :
  news_lines W news_data = Raises e -> exn_is_exception e = true.
Proof. unfold news_lines. intros H. raised H. Qed.

#[local] Hint Resolve price_lines_raises news_lines_raises : raises.

(** *** What the bodies raise

    A body raises an instance of [Exception], or what its provider raised. *)

Lemma ticker_analysis_body_raises W ticker news_data price_data e :
  ticker_analysis_body W ticker news_data price_data = Raises e ->
  exn_is_exception e = true.
Proof. unfold ticker_analysis_body. intros H. raised H. Qed.

Lemma ticker_news_body_raises W ticker e :
  ticker_news_body W ticker = Raises e ->
  exn_is_exception e = true
  \/ newsapi_get_everything W (ticker ++ " stock") "en" "publishedAt" 5 = Raises e.
Proof. unfold ticker_news_body. intros H. raised H. Qed.

Lemma ticker_price_body_raises W ticker e :
  ticker_price_body W ticker = Raises e ->
  exn_is_exception e = true
  \/ requests_get_json W (quote_url W ticker) = Raises e.
Proof. unfold ticker_price_body. intros H. raised H. Qed.

Lemma ticker_price_change_body_raises W ticker timeframe e :
  ticker_price_change_body W ticker timeframe = Raises e ->
  exn_is_exception e = true
  \/ requests_get_json W (daily_url W ticker) = Raises e.
Proof. unfold ticker_price_change_body. intros H. raised H. Qed.

Lemma alpha_vantage_search_raises W query e :
  alpha_vantage_search W query = Raises e ->
  exn_is_exception e = true
  \/ requests_get_json W (search_url W query) = Raises e.
Proof. unfold alpha_vantage_search. intros H. raised H. Qed.

Lemma identify_ticker_body_raises W query e :
  identify_ticker_body W query = Raises e ->
  exn_is_exception e = true
  \/ yf_Tickers W (clean_query query) = Raises e
  \/ requests_get_json W (search_url W (clean_query query)) = Raises e.
Proof.
  unfold identify_ticker_body. intros H. unfold bind at 1 in H.
  destruct (yf_Tickers W (clean_query query)) as [tickers|e'] eqn:Hyf.
  - destruct (match tickers with Some items => scan_candidates W items | None => None end);
      [discriminate|].
    destruct (alpha_vantage_search_raises W _ _ H); auto.
  - injection H as <-. auto.
Qed.

(** What a guarded tool gives, read from what its body gives. *)
Lemma try_except_cases (body : result pyval) (prefix : string) :
  match try_except body (fun e => Returns (error_result (prefix ++ exn_str e))) with
  | Returns v =>
      body = Returns v
      \/ exists e, body = Raises e /\ exn_is_exception e = true
                   /\ v = error_result (prefix ++ exn_str e)
  | Raises e => body = Raises e /\ exn_is_exception e = false
  end.
Proof.
  destruct body as [v|e]; cbn [try_except]; [now left|].
  destruct (exn_is_exception e) eqn:He; [|now split].
  right. now exists e.
Qed.

Lemma guarded_tool_result (body : result pyval) (prefix : string) v :
  (forall v, body = Returns v -> tool_result v) ->
  try_except body (fun e => Returns (error_result (prefix ++ exn_str e))) = Returns v ->
  tool_result v.
Proof.
  intros Hbody H. pose proof (try_except_cases body prefix) as Hc. rewrite H in Hc.
  destruct Hc as [Hv|(e & _ & _ & ->)]; auto with tools.
Qed.

Lemma guarded_escape (body : result pyval) (prefix : string) e :
  try_except body (fun e => Returns (error_result (prefix ++ exn_str e))) = Raises e ->
  body = Raises e /\ exn_is_exception e = false.
Proof.
  intros H. pose proof (try_except_cases body prefix) as Hc. now rewrite H in Hc.
Qed.

(** C1: whatever the arguments and whatever the providers do, every value
    that one of the five tools returns is a dictionary that is a
    [ToolResult]: status "success" with a [data] item and no
    [error_message], or status "error" with an [error_message] string and no
    [data].  A tool returns no value only when a call to its provider raised
    an exception that is not an instance of [Exception], which then goes on
    to the caller; [ticker_analysis], which calls no provider, always
    returns. *)
Theorem tools_return_tool_results (W : world) :
  (forall query,
      match identify_ticker W query with
      | Returns v => tool_result v
      | Raises e =>
          exn_is_exception e = false
          /\ (yf_Tickers W (clean_query query) = Raises e
              \/ requests_get_json W (search_url W (clean_query query)) = Raises e)
      end)
  /\ (forall ticker,
         match ticker_news W ticker with
         | Returns v => tool_result v
         | Raises e =>
             exn_is_exception e = false
             /\ newsapi_get_everything W (ticker ++ " stock") "en" "publishedAt" 5
                = Raises e
         end)
  /\ (forall ticker,
         match ticker_price W ticker with
         | Returns v => tool_result v
         | Raises e =>
             exn_is_exception e = false
             /\ requests_get_json W (quote_url W ticker) = Raises e
         end)
  /\ (forall ticker timeframe,
         match ticker_price_change W ticker timeframe with
         | Returns v => tool_result v
         | Raises e =>
             exn_is_exception e = false
             /\ requests_get_json W (daily_url W ticker) = Raises e
         end)
  /\ (forall ticker news_data price_data,
        exists v, ticker_analysis W ticker news_data price_data = Returns v
                  /\ tool_result v).
Proof.
  split; [|split; [|split; [|split]]].
  - intros query. destruct (identify_ticker W query) as [v|e] eqn:H.
    + eapply guarded_tool_result; [apply identify_ticker_body_tool_result|exact H].
    + apply guarded_escape in H as [Hb He]. split; [exact He|].
      destruct (identify_ticker_body_raises W query e Hb) as [Hx|Hp]; [congruence|exact Hp].
  - intros ticker. destruct (ticker_news W ticker) as [v|e] eqn:H.
    + eapply guarded_tool_result; [apply ticker_news_body_tool_result|exact H].
    + apply guarded_escape in H as [Hb He]. split; [exact He|].
      destruct (ticker_news_body_raises W ticker e Hb) as [Hx|Hp]; [congruence|exact Hp].
  - intros ticker. destruct (ticker_price W ticker) as [v|e] eqn:H.
    + eapply guarded_tool_result; [apply ticker_price_body_tool_result|exact H].
    + apply guarded_escape in H as [Hb He]. split; [exact He|].
      destruct (ticker_price_body_raises W ticker e Hb) as [Hx|Hp]; [congruence|exact Hp].
  - intros ticker timeframe.
    destruct (ticker_price_change W ticker timeframe) as [v|e] eqn:H.
    + eapply guarded_tool_result; [apply ticker_price_change_body_tool_result|exact H].
    + apply guarded_escape in H as [Hb He]. split; [exact He|].
      destruct (ticker_price_change_body_raises W ticker timeframe e Hb) as [Hx|Hp];
        [congruence|exact Hp].
  - intros ticker news_data price_data.
    destruct (ticker_analysis W ticker news_data price_data) as [v|e] eqn:H.
    + exists v. split; [reflexivity|].
      eapply guarded_tool_result; [apply ticker_analysis_body_tool_result|exact H].
    + apply guarded_escape in H as [Hb He].
      apply ticker_analysis_body_raises in Hb. congruence.
Qed.




(** ** The price change over a window *)

Lemma py_in_present k d x : dict_get k d = Some x -> py_in k (PDict d) = Returns true.
Proof. intros H. cbn [py_in]. now rewrite H. Qed.

Lemma py_getitem_present W k d x :
  dict_get k d = Some x -> py_getitem W (PDict d) k = Returns x.
Proof. intros H. cbn [py_getitem]. now rewrite H. Qed.

Lemma seq_index_nat {A : Type} (l : list A) (i : nat) :
  i < List.length l -> seq_index l (Z.of_nat i) = nth_error l i.
Proof.
  intros Hi. unfold seq_index.
  destruct (Z.ltb_spec (Z.of_nat i) 0) as [Hneg|_]; [lia|].
  destruct (Z.ltb_spec (Z.of_nat i) 0) as [Hneg|_]; [lia|].
  destruct (Z.leb_spec (Z.of_nat (List.length l)) (Z.of_nat i)) as [Hbig|_]; [lia|].
  cbn [orb]. now rewrite Nat2Z.id.
Qed.

(** In a dictionary, whose keys are distinct, the item at a position is the
    one its key looks up. *)
Lemma dict_get_nth d i k v :
  NoDup (dict_keys d) -> nth_error d i = Some (k, v) -> dict_get k d = Some v.
Proof.
  revert i. induction d as [|[k' v'] d IH]; intros i Hnd Hi.
  - destruct i; discriminate Hi.
  - cbn [dict_keys map fst] in Hnd. apply NoDup_cons_iff in Hnd as [Hnotin Hnd].
    cbn [dict_get]. destruct i as [|i]; cbn [nth_error] in Hi.
    + injection Hi as -> ->. now rewrite String.eqb_refl.
    + destruct (String.eqb_spec k k') as [->|_]; [|now apply (IH i)].
      exfalso. apply Hnotin. apply nth_error_In with (n := i).
      unfold dict_keys in *. rewrite nth_error_map, Hi. reflexivity.
Qed.

Lemma close_on_item W series i date fields close price :
  NoDup (dict_keys series) ->
  nth_error series i = Some (date, PDict fields) ->
  dict_get "4. close" fields = Some close ->
  py_float W close = Returns price ->
  close_on W (PDict series) date = Returns price.
Proof.
  intros Hnd Hi Hclose Hfloat. unfold close_on, bind.
  rewrite (py_getitem_present W _ _ _ (dict_get_nth _ _ _ _ Hnd Hi)).
  now rewrite (py_getitem_present W _ _ _ Hclose).
Qed.

(** The clamped start of a window of [n] trading days. *)
Lemma date_at_clamped dates n :
  dates <> [] ->
  date_at dates (Z.min (Z.of_nat n) (Z.of_nat (List.length dates) - 1))
  = match nth_error dates (Nat.min n (List.length dates - 1)) with
    | Some d => Returns d
    | None => Raises (IndexError "list index out of range")
    end.
Proof.
  intros Hne. unfold date_at.
  assert (Hlen : 0 < List.length dates) by (destruct dates; [contradiction|cbn; lia]).
  replace (Z.min (Z.of_nat n) (Z.of_nat (List.length dates) - 1))
    with (Z.of_nat (Nat.min n (List.length dates - 1))) by lia.
  rewrite seq_index_nat by lia. reflexivity.
Qed.

Lemma select_window_clamped timeframe n dates start_date end_date :
  (timeframe = "week" /\ n = 7) \/ (timeframe = "month" /\ n = 30) ->
  nth_error dates (Nat.min n (List.length dates - 1)) = Some start_date ->
  nth_error dates 0 = Some end_date ->
  select_window timeframe dates = Returns (start_date, end_date).
Proof.
  intros Htf Hs He.
  assert (Hne : dates <> []) by (destruct dates; [discriminate He|discriminate]).
  assert (He' : date_at dates 0 = Returns end_date).
  { assert (H0 : seq_index dates (Z.of_nat 0) = nth_error dates 0).
    { apply seq_index_nat. destruct dates; [contradiction|cbn; lia]. }
    cbn [Z.of_nat] in H0. unfold date_at. now rewrite H0, He. }
  pose proof (date_at_clamped dates n Hne) as Hs'. rewrite Hs in Hs'.
  unfold select_window, bind.
  destruct Htf as [[-> ->]|[-> ->]]; cbn [String.eqb Ascii.eqb Bool.eqb];
    change (Z.of_nat 7) with 7%Z in Hs'; change (Z.of_nat 30) with 30%Z in Hs';
    now rewrite Hs', He'.
Qed.

(** Once the window is chosen and both closing prices are read, the tool
    returns the change between them. *)
Lemma price_change_of_window W ticker timeframe data series
    start_date end_date start_price end_price :
  requests_get_json W (daily_url W ticker) = Returns (PDict data) ->
  dict_get "Time Series (Daily)" data = Some (PDict series) ->
  select_window timeframe (dict_keys series) = Returns (start_date, end_date) ->
  close_on W (PDict series) start_date = Returns start_price ->
  close_on W (PDict series) end_date = Returns end_price ->
  PrimFloat.eqb start_price 0 = false ->
  ticker_price_change W ticker timeframe
  = Returns (success_result
               (price_change_data start_date end_date start_price end_price
                  (PrimFloat.mul
                     (PrimFloat.div (PrimFloat.sub end_price start_price) start_price)
                     100)
                  timeframe)).
Proof.
  intros Hget Hseries Hwin Hs He Hnz.
  unfold ticker_price_change, ticker_price_change_body, bind.
  rewrite Hget, (py_in_present _ _ _ Hseries), (py_getitem_present W _ _ _ Hseries).
  cbn [py_keys]. rewrite Hwin. cbn [fst snd]. rewrite Hs, He.
  unfold percent_change, PyNum.truediv, bind. rewrite Hnz. reflexivity.
Qed.

Lemma select_window_today dates start_date end_date :
  nth_error dates 1 = Some start_date ->
  nth_error dates 0 = Some end_date ->
  select_window "today" dates = Returns (start_date, end_date).
Proof.
  intros Hs He.
  assert (Hlen : 1 < List.length dates).
  { apply nth_error_Some. rewrite Hs. discriminate. }
  pose proof (seq_index_nat dates 1 Hlen) as H1.
  pose proof (seq_index_nat dates 0 ltac:(lia)) as H0.
  cbn [Z.of_nat Pos.of_succ_nat] in H0, H1.
  unfold select_window, date_at, bind. cbn [String.eqb Ascii.eqb Bool.eqb].
  now rewrite H1, Hs, H0, He.
Qed.

(** C3: on a daily series with at least two items, ["today"] takes the date
    at index 1 as the start and the date at index 0 as the end and returns
    [(end_close - start_close) / start_close * 100], provided both closing
    prices convert to floats and the start price is not zero.  With closes
    110 on "2024-01-10" and 100 on "2024-01-09" the change is 10.0. *)
Theorem price_change_today W ticker data d0 f0 d1 f1 rest c0 c1 start_price end_price :
  requests_get_json W (daily_url W ticker) = Returns (PDict data) ->
  dict_get "Time Series (Daily)" data
  = Some (PDict ((d0, PDict f0) :: (d1, PDict f1) :: rest)) ->
  d0 <> d1 ->
  dict_get "4. close" f0 = Some c0 -> py_float W c0 = Returns end_price ->
  dict_get "4. close" f1 = Some c1 -> py_float W c1 = Returns start_price ->
  PrimFloat.eqb start_price 0 = false ->
  ticker_price_change W ticker "today"
  = Returns (success_result
               (price_change_data d1 d0 start_price end_price
                  (PrimFloat.mul
                     (PrimFloat.div (PrimFloat.sub end_price start_price) start_price)
                     100)
                  "today"))
  /\ (d0 = "2024-01-10" -> d1 = "2024-01-09" ->
      end_price = 110%float -> start_price = 100%float ->
      ticker_price_change W ticker "today"
      = Returns (success_result
                   (price_change_data "2024-01-09" "2024-01-10" 100 110 10 "today"))).
Proof.
  intros Hget Hseries Hneq Hc0 Hf0 Hc1 Hf1 Hnz.
  assert (Hgen : ticker_price_change W ticker "today"
                 = Returns (success_result
                              (price_change_data d1 d0 start_price end_price
                                 (PrimFloat.mul
                                    (PrimFloat.div
                                       (PrimFloat.sub end_price start_price)
                                       start_price) 100)
                                 "today"))).
  { eapply price_change_of_window; eauto.
    - apply select_window_today; reflexivity.
    - assert (Hd1 : dict_get d1 ((d0, PDict f0) :: (d1, PDict f1) :: rest)
                    = Some (PDict f1)).
      { cbn [dict_get]. destruct (String.eqb_spec d1 d0) as [E|_]; [now elim Hneq|].
        now rewrite String.eqb_refl. }
      unfold close_on, bind.
      now rewrite (py_getitem_present W _ _ _ Hd1), (py_getitem_present W _ _ _ Hc1).
    - assert (Hd0 : dict_get d0 ((d0, PDict f0) :: (d1, PDict f1) :: rest)
                    = Some (PDict f0)).
      { cbn [dict_get]. now rewrite String.eqb_refl. }
      unfold close_on, bind.
      now rewrite (py_getitem_present W _ _ _ Hd0), (py_getitem_present W _ _ _ Hc0). }
  split; [exact Hgen|].
  intros -> -> -> ->. exact Hgen.
Qed.

Lemma price_change_today_sample :
  ticker_price_change Sample.three_days "TSLA" "today"
  = Returns (success_result
               (price_change_data "2024-01-09" "2024-01-10" 100 110 10 "today")).
Proof.
  refine (proj2 (price_change_today Sample.three_days "TSLA"
                   _ "2024-01-10" _ "2024-01-09" _ _ _ _ 100 110
                   _ _ _ _ _ _ _ _) _ _ _ _).
  - reflexivity.
  - reflexivity.
  - discriminate.
  - reflexivity.
  - reflexivity.
  - reflexivity.
  - reflexivity.
  - reflexivity.
  - reflexivity.
  - reflexivity.
  - reflexivity.
  - reflexivity.
Defined.

(** The change over a window that starts [n] trading days back, clamped to
    the oldest item. *)
Lemma price_change_clamped W ticker timeframe n data series
    ds fs cs start_price de fe ce end_price :
  requests_get_json W (daily_url W ticker) = Returns (PDict data) ->
  dict_get "Time Series (Daily)" data = Some (PDict series) ->
  NoDup (dict_keys series) ->
  select_window timeframe (dict_keys series)
  = select_window (if (n =? 7)%nat then "week" else "month") (dict_keys series) ->
  n = 7 \/ n = 30 ->
  nth_error series (Nat.min n (List.length series - 1)) = Some (ds, PDict fs) ->
  dict_get "4. close" fs = Some cs -> py_float W cs = Returns start_price ->
  nth_error series 0 = Some (de, PDict fe) ->
  dict_get "4. close" fe = Some ce -> py_float W ce = Returns end_price ->
  PrimFloat.eqb start_price 0 = false ->
  ticker_price_change W ticker timeframe
  = Returns (success_result
               (price_change_data ds de start_price end_price
                  (PrimFloat.mul
                     (PrimFloat.div (PrimFloat.sub end_price start_price) start_price)
                     100)
                  timeframe)).
Proof.
  intros Hget Hseries Hnd Hwin Hn Hs Hcs Hfs He Hce Hfe Hnz.
  eapply price_change_of_window; eauto using close_on_item.
  rewrite Hwin. apply select_window_clamped with (n := n).
  - destruct Hn as [-> | ->]; cbn; auto.
  - unfold dict_keys. rewrite length_map, nth_error_map, Hs. reflexivity.
  - unfold dict_keys. rewrite nth_error_map, He. reflexivity.
Qed.

Lemma nonempty_clamped_items {A : Type} (l : list A) n :
  l <> [] ->
  exists s e, nth_error l (Nat.min n (List.length l - 1)) = Some s
              /\ nth_error l 0 = Some e.
Proof.
  intros Hne. destruct l as [|e l]; [contradiction|].
  destruct (nth_error (e :: l) (Nat.min n (List.length (e :: l) - 1))) as [s|] eqn:Hs.
  - now exists s, e.
  - apply nth_error_None in Hs. cbn [List.length] in Hs. lia.
Qed.

(** C4: on a non-empty daily series of length L, ["week"] starts at index
    min(7, L-1) and ["month"] at index min(30, L-1), both ending at index 0:
    the window is chosen without an error, and when the closing prices of
    those two items convert to floats (the start one not zero) the tool
    returns their dates, prices and change.  On three items ["week"] starts
    at index 2, the oldest item. *)
Theorem price_change_week_month W ticker data series timeframe n :
  requests_get_json W (daily_url W ticker) = Returns (PDict data) ->
  dict_get "Time Series (Daily)" data = Some (PDict series) ->
  series <> [] ->
  NoDup (dict_keys series) ->
  (timeframe = "week" /\ n = 7) \/ (timeframe = "month" /\ n = 30) ->
  (exists start_date end_date,
      nth_error (dict_keys series) (Nat.min n (List.length series - 1)) = Some start_date
      /\ nth_error (dict_keys series) 0 = Some end_date
      /\ select_window timeframe (dict_keys series) = Returns (start_date, end_date))
  /\ (forall ds fs cs start_price de fe ce end_price,
         nth_error series (Nat.min n (List.length series - 1)) = Some (ds, PDict fs) ->
         dict_get "4. close" fs = Some cs -> py_float W cs = Returns start_price ->
         nth_error series 0 = Some (de, PDict fe) ->
         dict_get "4. close" fe = Some ce -> py_float W ce = Returns end_price ->
         PrimFloat.eqb start_price 0 = false ->
         ticker_price_change W ticker timeframe
         = Returns (success_result
                      (price_change_data ds de start_price end_price
                         (PrimFloat.mul
                            (PrimFloat.div (PrimFloat.sub end_price start_price)
                               start_price)
                            100)
                         timeframe)))
  /\ (timeframe = "week" -> List.length series = 3 ->
      Nat.min n (List.length series - 1) = 2).
Proof.
  intros Hget Hseries Hne Hnd Htf. split; [|split].
  - assert (Hkeys : dict_keys series <> []).
    { destruct series; [contradiction|discriminate]. }
    destruct (nonempty_clamped_items (dict_keys series) n Hkeys) as (s & e & Hs & He).
    unfold dict_keys in Hs at 2. rewrite length_map in Hs.
    exists s, e. repeat split; auto.
    apply select_window_clamped with (n := n); auto.
    unfold dict_keys at 2. now rewrite length_map.
  - intros. eapply price_change_clamped with (n := n); eauto.
    + destruct Htf as [[-> ->]|[-> ->]]; reflexivity.
    + destruct Htf as [[_ ->]|[_ ->]]; auto.
  - intros -> Hlen. destruct Htf as [[_ ->]|[Hm _]]; [|discriminate Hm].
    rewrite Hlen. reflexivity.
Qed.

Lemma price_change_week_sample :
  ticker_price_change Sample.three_days "TSLA" "week"
  = Returns (success_result
               (price_change_data "2024-01-08" "2024-01-10" 88 110 25 "week")).
Proof.
  refine (proj1 (proj2 (price_change_week_month Sample.three_days "TSLA"
                          _ Sample.series3 "week" 7 _ _ _ _ _))
            "2024-01-08" _ _ 88%float "2024-01-10" _ _ 110%float _ _ _ _ _ _ _).
  - reflexivity.
  - reflexivity.
  - discriminate.
  - repeat (constructor; [cbn; intuition discriminate|]). constructor.
  - left. split; reflexivity.
  - reflexivity.
  - reflexivity.
  - reflexivity.
  - reflexivity.
  - reflexivity.
  - reflexivity.
  - reflexivity.
Defined.

(** Closes a goal whose two sides went through the same handler. *)
Ltac same_either_way :=
  try match goal with
      | |- context [exn_is_exception ?e] => destruct (exn_is_exception e)
      end;
  reflexivity.

Lemma select_window_default timeframe dates :
  timeframe <> "today" -> timeframe <> "week" ->
  select_window timeframe dates = select_window "month" dates.
Proof.
  intros Ht Hw. unfold select_window.
  destruct (String.eqb_spec timeframe "today") as [E|_]; [contradiction|].
  destruct (String.eqb_spec timeframe "week") as [E|_]; [contradiction|].
  reflexivity.
Qed.

(** C9: a timeframe other than "today" and "week" is never checked against
    the three names: the window is chosen as for "month" (start at index
    min(30, L-1), end at index 0), the tool returns what it returns for
    "month" with the given string in the [timeframe] item, and on a
    non-empty series the result carries that string as it was passed. *)
Theorem price_change_other_timeframe W ticker timeframe :
  timeframe <> "today" -> timeframe <> "week" ->
  (forall dates, select_window timeframe dates = select_window "month" dates)
  /\ ticker_price_change W ticker timeframe
     = match ticker_price_change W ticker "month" with
       | Returns v => Returns (set_timeframe timeframe v)
       | Raises e => Raises e
       end
  /\ (forall data series ds fs cs start_price de fe ce end_price,
         requests_get_json W (daily_url W ticker) = Returns (PDict data) ->
         dict_get "Time Series (Daily)" data = Some (PDict series) ->
         NoDup (dict_keys series) ->
         nth_error series (Nat.min 30 (List.length series - 1)) = Some (ds, PDict fs) ->
         dict_get "4. close" fs = Some cs -> py_float W cs = Returns start_price ->
         nth_error series 0 = Some (de, PDict fe) ->
         dict_get "4. close" fe = Some ce -> py_float W ce = Returns end_price ->
         PrimFloat.eqb start_price 0 = false ->
         ticker_price_change W ticker timeframe
         = Returns (success_result
                      (price_change_data ds de start_price end_price
                         (PrimFloat.mul
                            (PrimFloat.div (PrimFloat.sub end_price start_price)
                               start_price)
                            100)
                         timeframe))).
Proof.
  intros Ht Hw. split; [|split].
  - intros dates. now apply select_window_default.
  - unfold ticker_price_change, ticker_price_change_body, bind, try_except.
    destruct (requests_get_json W (daily_url W ticker)) as [data|e]; [|same_either_way].
    destruct (py_in "Time Series (Daily)" data) as [[|]|e]; try same_either_way.
    destruct (py_getitem W data "Time Series (Daily)") as [series|e]; [|same_either_way].
    destruct (py_keys series) as [dates|e]; [|same_either_way].
    rewrite (select_window_default timeframe dates Ht Hw).
    destruct (select_window "month" dates) as [[s e]|e]; [|same_either_way].
    cbn [fst snd].
    destruct (close_on W series s) as [sp|e']; [|same_either_way].
    destruct (close_on W series e) as [ep|e']; [|same_either_way].
    destruct (percent_change sp ep) as [change|e']; same_either_way.
  - intros. eapply price_change_clamped with (n := 30); eauto.
    now apply select_window_default.
Qed.

Lemma price_change_year_sample :
  ticker_price_change Sample.three_days "TSLA" "year"
  = Returns (success_result
               (price_change_data "2024-01-08" "2024-01-10" 88 110 25 "year")).
Proof.
  refine (proj2 (proj2 (price_change_other_timeframe Sample.three_days "TSLA" "year" _ _))
            _ Sample.series3 "2024-01-08" _ _ 88%float "2024-01-10" _ _ 110%float
            _ _ _ _ _ _ _ _ _ _).
  - discriminate.
  - discriminate.
  - reflexivity.
  - reflexivity.
  - repeat (constructor; [cbn; intuition discriminate|]). constructor.
  - reflexivity.
  - reflexivity.
  - reflexivity.
  - reflexivity.
  - reflexivity.
  - reflexivity.
  - reflexivity.
Defined.

(** C10: when the daily series holds exactly one date, ["today"] reads
    [dates[1]], which raises [IndexError]; the handler turns it into the
    error dictionary whose message starts with "Error calculating price
    change:".  The tool neither succeeds nor raises. *)
Theorem price_change_today_single_date W ticker data date day :
  requests_get_json W (daily_url W ticker) = Returns (PDict data) ->
  dict_get "Time Series (Daily)" data = Some (PDict [(date, day)]) ->
  ticker_price_change W ticker "today"
  = Returns (error_result
               ("Error calculating price change: " ++ "list index out of range")).
Proof.
  intros Hget Hseries.
  unfold ticker_price_change, ticker_price_change_body, bind.
  rewrite Hget, (py_in_present _ _ _ Hseries), (py_getitem_present W _ _ _ Hseries).
  reflexivity.
Qed.

Lemma price_change_today_single_date_sample :
  ticker_price_change Sample.one_day "TSLA" "today"
  = Returns (error_result
               "Error calculating price change: list index out of range").
Proof.
  refine (price_change_today_single_date Sample.one_day "TSLA" _ "2024-01-10" _ _ _).
  - reflexivity.
  - reflexivity.
Defined.

(** ** The analysis text *)

Lemma append_empty (s : string) : s ++ "" = s.
Proof. induction s as [|c s IH]; cbn; [reflexivity|now rewrite IH]. Qed.

Lemma join_lines_starts (first : string) (others : list string) :
  exists rest, join_lines (first :: others) = first ++ rest.
Proof.
  destruct others as [|l ls].
  - exists "". cbn. now rewrite append_empty.
  - exists (nl ++ join_lines (l :: ls)). reflexivity.
Qed.

Lemma bullets_of_titled W articles :
  Forall titled articles -> exists bs, map_m (bullet W) articles = Returns bs.
Proof.
  induction 1 as [|a l (d & t & -> & Ht) _ (bs & IH)].
  - now exists [].
  - exists (("- " ++ py_str W t) :: bs).
    cbn [map_m]. unfold bullet at 1, bind.
    rewrite (py_getitem_present W _ _ _ Ht). unfold bind in IH. now rewrite IH.
Qed.

Lemma news_lines_of_tool_result W news_data :
  news_tool_result news_data -> exists ls, news_lines W news_data = Returns ls.
Proof.
  intros [(m & ->)|(articles & -> & Hall)].
  - now exists [].
  - destruct articles as [|a l]; [now exists []|].
    destruct (bullets_of_titled W _ Hall) as (bs & Hbs).
    exists (news_header :: bs).
    unfold news_lines, bind. cbn [success_result py_getitem dict_get String.eqb
      Ascii.eqb Bool.eqb py_eq_str py_len py_slice_to].
    unfold bind in Hbs. cbn [List.length Z.of_nat Z.ltb Z.compare].
    now rewrite Hbs.
Qed.

Lemma analysis_of_lines W ticker news_data price_data from_price :
  price_lines W price_data = Returns from_price ->
  ticker_analysis W ticker news_data price_data
  = match news_lines W news_data with
    | Returns from_news =>
        Returns (success_result
                   (PDict [("analysis",
                            PStr (join_lines (from_price ++ from_news)%list))]))
    | Raises e => Returns (error_result ("Error in analysis: " ++ exn_str e))
    end.
Proof.
  intros Hp. unfold ticker_analysis, ticker_analysis_body, bind. rewrite Hp.
  destruct (news_lines W news_data) as [ls|e] eqn:Hn; [reflexivity|].
  cbn [try_except]. now rewrite (news_lines_raises W news_data e Hn).
Qed.

(** C5: a successful price result whose change is exactly 0.0 over "today"
    makes the price block say "decreased by 0.00%": the test is [change > 0],
    and zero falls to the other branch.  The summary starts with that
    sentence whenever the news block completes, which it does on every news
    result that is an error or a list of titled articles; when the news
    block raises, the tool returns its error dictionary. *)
Theorem analysis_zero_change W ticker price info :
  dict_get "status" price = Some (PStr "success") ->
  dict_get "data" price = Some (PDict info) ->
  dict_get "percent_change" info = Some (PFloat 0) ->
  dict_get "timeframe" info = Some (PStr "today") ->
  price_lines W (PDict price)
  = Returns ["The stock has decreased by 0.00% over today."]
  /\ (forall news_data,
         match news_lines W news_data with
         | Returns _ =>
             exists rest,
               ticker_analysis W ticker news_data (PDict price)
               = Returns (success_result
                            (PDict [("analysis",
                                     PStr ("The stock has decreased by 0.00% over today."
                                             ++ rest))]))
         | Raises e =>
             ticker_analysis W ticker news_data (PDict price)
             = Returns (error_result ("Error in analysis: " ++ exn_str e))
         end)
  /\ (forall news_data,
         news_tool_result news_data ->
         exists rest,
           ticker_analysis W ticker news_data (PDict price)
           = Returns (success_result
                        (PDict [("analysis",
                                 PStr ("The stock has decreased by 0.00% over today."
                                         ++ rest))]))).
Proof.
  intros Hstatus Hdata Hchange Htf.
  assert (Hp : price_lines W (PDict price)
               = Returns ["The stock has decreased by 0.00% over today."]).
  { unfold price_lines, bind.
    rewrite (py_getitem_present W _ _ _ Hstatus), (py_getitem_present W _ _ _ Hdata),
      (py_getitem_present W _ _ _ Hchange), (py_getitem_present W _ _ _ Htf).
    reflexivity. }
  assert (Hall : forall news_data,
             match news_lines W news_data with
             | Returns _ =>
                 exists rest,
                   ticker_analysis W ticker news_data (PDict price)
                   = Returns (success_result
                                (PDict [("analysis",
                                         PStr ("The stock has decreased by 0.00% over today."
                                                 ++ rest))]))
             | Raises e =>
                 ticker_analysis W ticker news_data (PDict price)
                 = Returns (error_result ("Error in analysis: " ++ exn_str e))
             end).
  { intros news_data. rewrite (analysis_of_lines W ticker news_data _ _ Hp).
    destruct (news_lines W news_data) as [ls|e]; [|reflexivity].
    cbn [app].
    destruct (join_lines_starts "The stock has decreased by 0.00% over today." ls)
      as (rest & ->).
    now exists rest. }
  split; [exact Hp|split; [exact Hall|]].
  intros news_data Hok. specialize (Hall news_data).
  destruct (news_lines_of_tool_result W news_data Hok) as (ls & Hls).
  now rewrite Hls in Hall.
Qed.

Lemma analysis_zero_change_sample :
  exists rest,
    ticker_analysis Sample.offline "TSLA" Sample.five_articles Sample.flat_today
    = Returns (success_result
                 (PDict [("analysis",
                          PStr ("The stock has decreased by 0.00% over today."
                                  ++ rest))])).
Proof.
  refine (proj1 (proj2 (analysis_zero_change Sample.offline "TSLA" _ _ _ _ _ _))
            Sample.five_articles).
  - reflexivity.
  - reflexivity.
  - reflexivity.
  - reflexivity.
Defined.

(** C7: with a price result that is an error and a news result that is a
    success with no article, neither block appends a line (no price sentence,
    no news header) and the tool returns a success whose text is empty. *)
Theorem analysis_error_price_empty_news W ticker price news :
  dict_get "status" price = Some (PStr "error") ->
  dict_get "status" news = Some (PStr "success") ->
  dict_get "data" news = Some (PList []) ->
  price_lines W (PDict price) = Returns []
  /\ news_lines W (PDict news) = Returns []
  /\ ticker_analysis W ticker (PDict news) (PDict price)
     = Returns (success_result (PDict [("analysis", PStr "")])).
Proof.
  intros Hprice Hnews Hdata.
  assert (Hp : price_lines W (PDict price) = Returns []).
  { unfold price_lines, bind. now rewrite (py_getitem_present W _ _ _ Hprice). }
  assert (Hn : news_lines W (PDict news) = Returns []).
  { unfold news_lines, bind.
    now rewrite (py_getitem_present W _ _ _ Hnews), (py_getitem_present W _ _ _ Hdata). }
  repeat split; auto.
  rewrite (analysis_of_lines W ticker _ _ _ Hp), Hn. reflexivity.
Qed.

Lemma analysis_error_price_empty_news_sample :
  ticker_analysis Sample.offline "TSLA"
    (success_result (PList [])) (error_result "No historical data available")
  = Returns (success_result (PDict [("analysis", PStr "")])).
Proof.
  refine (proj2 (proj2 (analysis_error_price_empty_news Sample.offline "TSLA"
                          _ _ _ _ _))).
  - reflexivity.
  - reflexivity.
  - reflexivity.
Defined.

(** C8: when the news result is a success with more than three articles,
    the news block appends the header and one bullet for each of the first
    three titles, and nothing for the fourth article or any later one; the
    summary is the price lines followed by these four lines. *)
Theorem analysis_first_three W ticker news f1 f2 f3 a4 more t1 t2 t3 price_data :
  dict_get "status" news = Some (PStr "success") ->
  dict_get "data" news
  = Some (PList (PDict f1 :: PDict f2 :: PDict f3 :: a4 :: more)) ->
  dict_get "title" f1 = Some t1 ->
  dict_get "title" f2 = Some t2 ->
  dict_get "title" f3 = Some t3 ->
  news_lines W (PDict news)
  = Returns [news_header;
             "- " ++ py_str W t1; "- " ++ py_str W t2; "- " ++ py_str W t3]
  /\ match price_lines W price_data with
     | Returns from_price =>
         ticker_analysis W ticker (PDict news) price_data
         = Returns (success_result
                      (PDict [("analysis",
                               PStr (join_lines
                                       (List.app from_price
                                          [news_header;
                                           "- " ++ py_str W t1;
                                           "- " ++ py_str W t2;
                                           "- " ++ py_str W t3])))]))
     | Raises e =>
         ticker_analysis W ticker (PDict news) price_data
         = Returns (error_result ("Error in analysis: " ++ exn_str e))
     end.
Proof.
  intros Hstatus Hdata H1 H2 H3.
  assert (Hn : news_lines W (PDict news)
               = Returns [news_header;
                          "- " ++ py_str W t1; "- " ++ py_str W t2;
                          "- " ++ py_str W t3]).
  { unfold news_lines, bind.
    rewrite (py_getitem_present W _ _ _ Hstatus), (py_getitem_present W _ _ _ Hdata).
    cbn [py_eq_str String.eqb Ascii.eqb Bool.eqb py_len List.length Z.of_nat
           Z.ltb Z.compare py_slice_to firstn map_m].
    unfold bullet, bind.
    now rewrite (py_getitem_present W _ _ _ H1), (py_getitem_present W _ _ _ H2),
      (py_getitem_present W _ _ _ H3). }
  split; [exact Hn|].
  destruct (price_lines W price_data) as [from_price|e] eqn:Hp.
  - now rewrite (analysis_of_lines W ticker _ _ _ Hp), Hn.
  - unfold ticker_analysis, ticker_analysis_body, bind. rewrite Hp.
    cbn [try_except]. now rewrite (price_lines_raises W price_data e Hp).
Qed.

Lemma analysis_first_three_sample :
  news_lines Sample.offline Sample.five_articles
  = Returns [news_header; "- One"; "- Two"; "- Three"].
Proof.
  refine (proj1 (analysis_first_three Sample.offline "TSLA"
                   _ _ _ _ _ _ (PStr "One") (PStr "Two") (PStr "Three")
                   Sample.flat_today _ _ _ _ _)).
  - reflexivity.
  - reflexivity.
  - reflexivity.
  - reflexivity.
  - reflexivity.
Defined.


(** * Further properties of the tools *)

(** ** identify_ticker *)

Lemma dict_get_nonempty k d x : dict_get k d = Some x -> py_truthy (PDict d) = true.
Proof. destruct d; [discriminate|reflexivity]. Qed.

Lemma try_candidate_named W symbol d name :
  dict_get "longName" d = Some name ->
  try_candidate W symbol (Returns (PDict d))
  = Returns (Some (success_result (ticker_data (PStr symbol) name))).
Proof.
  intros H. unfold try_candidate, bind.
  rewrite (dict_get_nonempty _ _ _ H), (py_in_present _ _ _ H),
    (py_getitem_present W _ _ _ H).
  reflexivity.
Qed.

Lemma try_candidate_unnamed W symbol info_attr :
  ~ named info_attr ->
  try_candidate W symbol info_attr = Returns None
  \/ exists e, try_candidate W symbol info_attr = Raises e.
Proof.
  intros Hun. unfold try_candidate, bind.
  destruct info_attr as [info|e]; [|right; now exists e].
  destruct (py_truthy info) eqn:Ht; [|now left].
  destruct info as [| b | z | f | s | l | d]; cbn [py_in];
    try (right; eexists; reflexivity).
  - destruct (PyStr.contains "longName" s); [|now left].
    right. eexists. reflexivity.
  - destruct (existsb _ l); [|now left].
    right. eexists. reflexivity.
  - destruct (dict_get "longName" d) as [name|] eqn:Hd; [|now left].
    exfalso. apply Hun. now exists d, name.
Qed.

Lemma scan_candidates_unnamed W items :
  Forall (fun item => ~ named (snd item)) items -> scan_candidates W items = None.
Proof.
  induction 1 as [|[symbol info_attr] rest Hun _ IH]; [reflexivity|].
  cbn [scan_candidates]. cbn [snd] in Hun.
  destruct (try_candidate_unnamed W symbol info_attr Hun) as [-> | (e & ->)]; exact IH.
Qed.

Lemma scan_candidates_first_named W before symbol d name after :
  Forall (fun item => ~ named (snd item)) before ->
  dict_get "longName" d = Some name ->
  scan_candidates W (before ++ (symbol, Returns (PDict d)) :: after)%list
  = Some (success_result (ticker_data (PStr symbol) name)).
Proof.
  intros Hbefore Hname.
  induction Hbefore as [|[symbol' info_attr] rest Hun _ IH].
  - cbn [app scan_candidates]. now rewrite (try_candidate_named W symbol d name Hname).
  - cbn [app scan_candidates]. cbn [snd] in Hun.
    destruct (try_candidate_unnamed W symbol' info_attr Hun) as [-> | (e & ->)];
      exact IH.
Qed.

(** X1: the ticker search decides alone when it can.  The first candidate
    whose metadata is a dictionary with the key "longName" is returned with
    that value as company name, whatever the value is (no test that it is a
    non-empty string); candidates before it whose lookup raised or gave
    anything else are passed over, and Alpha Vantage plays no part. *)
Theorem identify_ticker_first_named_candidate
    W query before symbol d name after :
  yf_Tickers W (clean_query query)
  = Returns (Some (before ++ (symbol, Returns (PDict d)) :: after)%list) ->
  Forall (fun item => ~ named (snd item)) before ->
  dict_get "longName" d = Some name ->
  identify_ticker W query
  = Returns (success_result (ticker_data (PStr symbol) name)).
Proof.
  intros Hyf Hbefore Hname.
  unfold identify_ticker, identify_ticker_body, bind. rewrite Hyf.
  now rewrite (scan_candidates_first_named W before symbol d name after Hbefore Hname).
Qed.

Lemma identify_ticker_first_named_candidate_sample :
  identify_ticker
    (Sample2.candidates
       [("TSLA", Raises Sample.unreachable);
        ("TL0.DE", Returns (PStr "longName"));
        ("TSLA.MX", Returns (PDict [("longName", PNone)]));
        ("TSLA.BA", Returns (PDict [("longName", PStr "Tesla, Inc.")]))])
    "Tesla stock"
  = Returns (success_result (ticker_data (PStr "TSLA.MX") PNone)).
Proof.
  refine (identify_ticker_first_named_candidate _ "Tesla stock"
            [("TSLA", Raises Sample.unreachable);
             ("TL0.DE", Returns (PStr "longName"))]
            "TSLA.MX" [("longName", PNone)] PNone
            [("TSLA.BA", Returns (PDict [("longName", PStr "Tesla, Inc.")]))]
            _ _ _).
  - reflexivity.
  - repeat constructor; intros (d & name & H & _); discriminate H.
  - reflexivity.
Defined.

Lemma no_candidate W tickers :
  (forall items, tickers = Some items ->
                 Forall (fun item => ~ named (snd item)) items) ->
  match tickers with
  | Some items => scan_candidates W items
  | None => None
  end = None.
Proof.
  intros H. destruct tickers as [items|]; [|reflexivity].
  apply scan_candidates_unnamed. now apply H.
Qed.

(** X2: when the ticker search accepts no candidate, the answer of the
    Alpha Vantage symbol search decides: if its "bestMatches" is a list that
    starts with a dictionary holding "1. symbol" and "2. name", these two
    values are returned; the other matches are not read. *)
Theorem identify_ticker_fallback_first_match
    W query tickers data fields others symbol name :
  yf_Tickers W (clean_query query) = Returns tickers ->
  (forall items, tickers = Some items ->
                 Forall (fun item => ~ named (snd item)) items) ->
  requests_get_json W (search_url W (clean_query query)) = Returns (PDict data) ->
  dict_get "bestMatches" data = Some (PList (PDict fields :: others)) ->
  dict_get "1. symbol" fields = Some symbol ->
  dict_get "2. name" fields = Some name ->
  identify_ticker W query = Returns (success_result (ticker_data symbol name)).
Proof.
  intros Hyf Hnone Hget Hbest Hsym Hname.
  unfold identify_ticker, identify_ticker_body, bind.
  rewrite Hyf, (no_candidate W tickers Hnone).
  unfold alpha_vantage_search, bind.
  rewrite Hget, (py_in_present _ _ _ Hbest), (py_getitem_present W _ _ _ Hbest).
  cbn [py_len List.length Z.of_nat Z.ltb Z.compare py_index].
  change (seq_index (PDict fields :: others) 0) with (seq_index (PDict fields :: others) (Z.of_nat 0)).
  rewrite seq_index_nat by (cbn; lia). cbn [nth_error].
  now rewrite (py_getitem_present W _ _ _ Hsym), (py_getitem_present W _ _ _ Hname).
Qed.

Lemma identify_ticker_fallback_first_match_sample :
  identify_ticker (Sample2.http Sample2.matches) "Tesla stock"
  = Returns (success_result (ticker_data (PStr "TSLA") (PStr "Tesla Inc"))).
Proof.
  refine (identify_ticker_fallback_first_match (Sample2.http Sample2.matches)
            "Tesla stock" None _ _ _ (PStr "TSLA") (PStr "Tesla Inc") _ _ _ _ _ _).
  - reflexivity.
  - intros items H. discriminate H.
  - reflexivity.
  - reflexivity.
  - reflexivity.
  - reflexivity.
Defined.

(** X3: when the ticker search accepts no candidate and the symbol search
    answers with a dictionary that has no "bestMatches" or an empty list of
    them, the tool returns the error "Could not find matching ticker
    symbol". *)
Theorem identify_ticker_no_match W query tickers data :
  yf_Tickers W (clean_query query) = Returns tickers ->
  (forall items, tickers = Some items ->
                 Forall (fun item => ~ named (snd item)) items) ->
  requests_get_json W (search_url W (clean_query query)) = Returns (PDict data) ->
  dict_get "bestMatches" data = None \/ dict_get "bestMatches" data = Some (PList []) ->
  identify_ticker W query
  = Returns (error_result "Could not find matching ticker symbol").
Proof.
  intros Hyf Hnone Hget Hbest.
  unfold identify_ticker, identify_ticker_body, bind.
  rewrite Hyf, (no_candidate W tickers Hnone).
  unfold alpha_vantage_search, bind. rewrite Hget.
  destruct Hbest as [Hbest|Hbest].
  - cbn [py_in]. now rewrite Hbest.
  - now rewrite (py_in_present _ _ _ Hbest), (py_getitem_present W _ _ _ Hbest).
Qed.

Lemma identify_ticker_no_match_sample :
  identify_ticker
    (Sample.world_of (Returns (PDict [("bestMatches", PList [])]))
       (Raises Sample.unreachable)
       (Returns (Some [("XYZZY", Returns (PDict [("symbol", PStr "XYZZY")]))])))
    "xyzzy"
  = Returns (error_result "Could not find matching ticker symbol").
Proof.
  refine (identify_ticker_no_match _ "xyzzy" _ _ _ _ _ _).
  - reflexivity.
  - intros items H. injection H as <-.
    repeat constructor. intros (d & name & H & Hn).
    injection H as <-. discriminate Hn.
  - reflexivity.
  - right. reflexivity.
Defined.

(** ** The cleaned query *)

(** X4: whatever the query, the cleaned query is in lower case (lower-casing
    it again changes nothing), has no whitespace at either end (stripping it
    again changes nothing) and is no longer than the lower-cased query:
    removing "stock" and stripping only take characters away. *)
Theorem clean_query_normal_form (query : string) :
  PyStr.lower (clean_query query) = clean_query query
  /\ PyStr.strip (clean_query query) = clean_query query
  /\ String.length (clean_query query) <= String.length (PyStr.lower query).
Proof.
  split; [apply clean_query_lower|split].
  - unfold clean_query. apply PyStrFacts.strip_idem.
  - unfold clean_query.
    change (PyStr.replace "stock" "" (PyStr.lower query))
      with (PyStr.replace_from "stock" "" 0 (PyStr.lower query)).
    pose proof (PyStrFacts.length_strip
                  (PyStr.replace_from "stock" "" 0 (PyStr.lower query))).
    pose proof (PyStrFacts.length_replace_from "stock" 0 (PyStr.lower query)).
    lia.
Qed.

(** ** ticker_news *)

(** X5: when the news client answers with a dictionary, the tool returns the
    value under "articles" as it is (no item is dropped, renamed or counted),
    and an answer without that key gives the error made from the [KeyError]. *)
Theorem ticker_news_passes_articles W ticker answer :
  newsapi_get_everything W (ticker ++ " stock") "en" "publishedAt" 5
  = Returns (PDict answer) ->
  ticker_news W ticker
  = match dict_get "articles" answer with
    | Some articles => Returns (success_result articles)
    | None => Returns (error_result
                         ("Error fetching news: " ++ py_repr W (PStr "articles")))
    end.
Proof.
  intros H. unfold ticker_news, ticker_news_body, bind. rewrite H.
  cbn [py_getitem]. destruct (dict_get "articles" answer); reflexivity.
Qed.

Lemma ticker_news_passes_articles_sample :
  ticker_news
    (Sample2.news (PDict [("status", PStr "ok"); ("totalResults", PInt 0)])) "TSLA"
  = Returns (error_result "Error fetching news: 'articles'").
Proof.
  refine (ticker_news_passes_articles _ "TSLA"
            [("status", PStr "ok"); ("totalResults", PInt 0)] _).
  reflexivity.
Defined.

(** ** ticker_price *)

Lemma ticker_price_body_shape W ticker v :
  ticker_price_body W ticker = Returns v ->
  (exists price volume trading_day previous_close,
      v = success_result (quote_data price volume trading_day previous_close))
  \/ v = error_result "No price data available".
Proof.
  unfold ticker_price_body, bind. intros H. split_calls H; injection H as <-.
  - left. do 4 eexists. reflexivity.
  - now right.
Qed.

(** X6: [ticker_price] returns one of three things: a success whose data has
    exactly the items price (a float), volume (an integer), trading_day and
    previous_close (a float), the error "No price data available", or an
    error whose message is "Error fetching price: " followed by the text of
    an exception.  It raises only what the HTTP call raised, and only when
    that is not an instance of [Exception]. *)
Theorem ticker_price_results W ticker :
  match ticker_price W ticker with
  | Returns v =>
      (exists price volume trading_day previous_close,
          v = success_result (quote_data price volume trading_day previous_close))
      \/ v = error_result "No price data available"
      \/ exists e, v = error_result ("Error fetching price: " ++ exn_str e)
  | Raises e =>
      exn_is_exception e = false
      /\ requests_get_json W (quote_url W ticker) = Raises e
  end.
Proof.
  unfold ticker_price.
  pose proof (try_except_cases (ticker_price_body W ticker) "Error fetching price: ")
    as Hc.
  destruct (try_except (ticker_price_body W ticker) _) as [v|e].
  - destruct Hc as [Hb|(e & _ & _ & ->)].
    + destruct (ticker_price_body_shape W ticker v Hb) as [H|H]; auto.
    + right. right. now exists e.
  - destruct Hc as [Hb He]. split; [exact He|].
    destruct (ticker_price_body_raises W ticker e Hb) as [Hx|Hp]; [congruence|exact Hp].
Qed.

(** X7: when the answer holds a "Global Quote" dictionary with the four
    fields, the price and the previous close going through [float] and the
    volume through [int], the tool returns them with the trading day as it
    came. *)
Theorem ticker_price_reads_quote
    W ticker data quote p price v volume trading_day c previous_close :
  requests_get_json W (quote_url W ticker) = Returns (PDict data) ->
  dict_get "Global Quote" data = Some (PDict quote) ->
  dict_get "05. price" quote = Some p -> py_float W p = Returns price ->
  dict_get "06. volume" quote = Some v -> py_int W v = Returns volume ->
  dict_get "07. latest trading day" quote = Some trading_day ->
  dict_get "08. previous close" quote = Some c -> py_float W c = Returns previous_close ->
  ticker_price W ticker
  = Returns (success_result (quote_data price volume trading_day previous_close)).
Proof.
  intros Hget Hq Hp Hpf Hv Hvi Hd Hc Hcf.
  unfold ticker_price, ticker_price_body, bind.
  rewrite Hget, (py_in_present _ _ _ Hq), (py_getitem_present W _ _ _ Hq),
    (py_getitem_present W _ _ _ Hp), Hpf, (py_getitem_present W _ _ _ Hv), Hvi,
    (py_getitem_present W _ _ _ Hd), (py_getitem_present W _ _ _ Hc), Hcf.
  reflexivity.
Qed.

Lemma ticker_price_reads_quote_sample :
  ticker_price
    (Sample2.http (Sample2.quote "250.5000" "1200300" "2024-01-10" "245.0000")) "TSLA"
  = Returns (success_result
               (quote_data 250.5 1200300 (PStr "2024-01-10") 245)).
Proof.
  refine (ticker_price_reads_quote _ "TSLA" _ _ _ _ _ _ _ _ _ _ _ _ _ _ _ _ _ _).
  - reflexivity.
  - reflexivity.
  - reflexivity.
  - reflexivity.
  - reflexivity.
  - reflexivity.
  - reflexivity.
  - reflexivity.
  - reflexivity.
Defined.

(** X8: an answer that is a dictionary without "Global Quote" gives the
    error "No price data available". *)
Theorem ticker_price_no_quote W ticker data :
  requests_get_json W (quote_url W ticker) = Returns (PDict data) ->
  dict_get "Global Quote" data = None ->
  ticker_price W ticker = Returns (error_result "No price data available").
Proof.
  intros Hget Hq. unfold ticker_price, ticker_price_body, bind.
  rewrite Hget. cbn [py_in]. now rewrite Hq.
Qed.

Lemma ticker_price_no_quote_sample :
  ticker_price
    (Sample2.http (PDict [("Note", PStr "API call frequency exceeded")])) "TSLA"
  = Returns (error_result "No price data available").
Proof.
  refine (ticker_price_no_quote _ "TSLA" _ _ _).
  - reflexivity.
  - reflexivity.
Defined.

(** X9: a "Global Quote" that is present but has no "05. price" (an empty
    quote, say) does not give "No price data available": reading the price
    raises [KeyError] and the tool returns the error made from it. *)
Theorem ticker_price_empty_quote W ticker data quote :
  requests_get_json W (quote_url W ticker) = Returns (PDict data) ->
  dict_get "Global Quote" data = Some (PDict quote) ->
  dict_get "05. price" quote = None ->
  ticker_price W ticker
  = Returns (error_result ("Error fetching price: " ++ py_repr W (PStr "05. price"))).
Proof.
  intros Hget Hq Hp. unfold ticker_price, ticker_price_body, bind.
  rewrite Hget, (py_in_present _ _ _ Hq), (py_getitem_present W _ _ _ Hq).
  cbn [py_getitem]. now rewrite Hp.
Qed.

Lemma ticker_price_empty_quote_sample :
  ticker_price (Sample2.http (PDict [("Global Quote", PDict [])])) "NOSUCH"
  = Returns (error_result "Error fetching price: '05. price'").
Proof.
  refine (ticker_price_empty_quote _ "NOSUCH" _ _ _ _ _).
  - reflexivity.
  - reflexivity.
  - reflexivity.
Defined.

(** ** ticker_price_change *)

(** X10: an answer that is a dictionary without "Time Series (Daily)" gives
    the error "No historical data available", whatever the timeframe. *)
Theorem price_change_no_series W ticker timeframe data :
  requests_get_json W (daily_url W ticker) = Returns (PDict data) ->
  dict_get "Time Series (Daily)" data = None ->
  ticker_price_change W ticker timeframe
  = Returns (error_result "No historical data available").
Proof.
  intros Hget Hs. unfold ticker_price_change, ticker_price_change_body, bind.
  rewrite Hget. cbn [py_in]. now rewrite Hs.
Qed.

Lemma price_change_no_series_sample :
  ticker_price_change
    (Sample2.http (PDict [("Error Message", PStr "Invalid API call")])) "NOSUCH" "week"
  = Returns (error_result "No historical data available").
Proof.
  refine (price_change_no_series _ "NOSUCH" "week" _ _ _).
  - reflexivity.
  - reflexivity.
Defined.

Lemma select_window_empty timeframe :
  select_window timeframe [] = Raises (IndexError "list index out of range").
Proof.
  unfold select_window.
  destruct (String.eqb timeframe "today"); [reflexivity|].
  destruct (String.eqb timeframe "week"); reflexivity.
Qed.

(** X11: a daily series with no date at all makes every timeframe fail on
    its first subscript ("today" on [dates[1]], the others on [dates[-1]]):
    the tool returns the error "Error calculating price change: list index
    out of range". *)
Theorem price_change_empty_series W ticker timeframe data :
  requests_get_json W (daily_url W ticker) = Returns (PDict data) ->
  dict_get "Time Series (Daily)" data = Some (PDict []) ->
  ticker_price_change W ticker timeframe
  = Returns (error_result
               ("Error calculating price change: " ++ "list index out of range")).
Proof.
  intros Hget Hs. unfold ticker_price_change, ticker_price_change_body, bind.
  rewrite Hget, (py_in_present _ _ _ Hs), (py_getitem_present W _ _ _ Hs).
  cbn [py_keys dict_keys map]. now rewrite select_window_empty.
Qed.

Lemma price_change_empty_series_sample :
  ticker_price_change (Sample2.http (Sample.daily [])) "TSLA" "month"
  = Returns (error_result "Error calculating price change: list index out of range").
Proof.
  refine (price_change_empty_series _ "TSLA" "month" _ _ _).
  - reflexivity.
  - reflexivity.
Defined.

(** X12: a start price that converts to zero is not guarded: the division
    raises and the tool returns the error "Error calculating price change:
    float division by zero". *)
Theorem price_change_zero_start W ticker timeframe data series
    start_date end_date start_price end_price :
  requests_get_json W (daily_url W ticker) = Returns (PDict data) ->
  dict_get "Time Series (Daily)" data = Some (PDict series) ->
  select_window timeframe (dict_keys series) = Returns (start_date, end_date) ->
  close_on W (PDict series) start_date = Returns start_price ->
  close_on W (PDict series) end_date = Returns end_price ->
  PrimFloat.eqb start_price 0 = true ->
  ticker_price_change W ticker timeframe
  = Returns (error_result
               ("Error calculating price change: " ++ "float division by zero")).
Proof.
  intros Hget Hseries Hwin Hs He Hz.
  unfold ticker_price_change, ticker_price_change_body, bind.
  rewrite Hget, (py_in_present _ _ _ Hseries), (py_getitem_present W _ _ _ Hseries).
  cbn [py_keys]. rewrite Hwin. cbn [fst snd]. rewrite Hs, He.
  unfold percent_change, PyNum.truediv, bind. rewrite Hz. reflexivity.
Qed.

Lemma price_change_zero_start_sample :
  ticker_price_change
    (Sample2.http (Sample.daily [("2024-01-10", Sample.day "1.2500");
                                 ("2024-01-09", Sample.day "0.0000")]))
    "TSLA" "today"
  = Returns (error_result "Error calculating price change: float division by zero").
Proof.
  refine (price_change_zero_start _ "TSLA" "today" _ _
            "2024-01-09" "2024-01-10" 0%float 1.25%float _ _ _ _ _ _).
  - reflexivity.
  - reflexivity.
  - reflexivity.
  - reflexivity.
  - reflexivity.
  - reflexivity.
Defined.

Lemma seq_index_In {A : Type} (l : list A) i x : seq_index l i = Some x -> In x l.
Proof.
  unfold seq_index.
  destruct (_ || _)%bool; [discriminate|]. apply nth_error_In.
Qed.

Lemma date_at_In dates i d : date_at dates i = Returns d -> In d dates.
Proof.
  unfold date_at. destruct (seq_index dates i) as [x|] eqn:H; [|discriminate].
  intros E. injection E as <-. eapply seq_index_In; eauto.
Qed.

Lemma date_at_first dates d : date_at dates 0 = Returns d -> hd_error dates = Some d.
Proof.
  unfold date_at, seq_index. cbn [Z.ltb Z.compare].
  destruct (_ || _)%bool; [discriminate|].
  cbn [Z.to_nat]. destruct dates as [|d0 dates]; cbn [nth_error hd_error].
  - discriminate.
  - intros E. injection E as <-. reflexivity.
Qed.

Lemma select_window_picks timeframe dates start_date end_date :
  select_window timeframe dates = Returns (start_date, end_date) ->
  In start_date dates /\ hd_error dates = Some end_date.
Proof.
  unfold select_window, bind. intros H.
  destruct (String.eqb timeframe "today"); [|destruct (String.eqb timeframe "week")];
    match type of H with
    | context [date_at dates ?i] => destruct (date_at dates i) as [s|] eqn:Hs
    end; try discriminate H;
    destruct (date_at dates 0) as [e|] eqn:He; try discriminate H;
    injection H as <- <-;
    (split; [eapply date_at_In; eauto|now apply date_at_first]).
Qed.

Lemma ticker_price_change_body_shape W ticker timeframe v :
  ticker_price_change_body W ticker timeframe = Returns v ->
  v = error_result "No historical data available"
  \/ exists data series start_date end_date start_price end_price,
      requests_get_json W (daily_url W ticker) = Returns (PDict data)
      /\ dict_get "Time Series (Daily)" data = Some (PDict series)
      /\ In start_date (dict_keys series)
      /\ hd_error (dict_keys series) = Some end_date
      /\ close_on W (PDict series) start_date = Returns start_price
      /\ close_on W (PDict series) end_date = Returns end_price
      /\ PrimFloat.eqb start_price 0 = false
      /\ v = success_result
               (price_change_data start_date end_date start_price end_price
                  (PrimFloat.mul
                     (PrimFloat.div (PrimFloat.sub end_price start_price)
                        start_price)
                     100)
                  timeframe).
Proof.
  unfold ticker_price_change_body, bind. intros H.
  destruct (requests_get_json W (daily_url W ticker)) as [data|] eqn:Hget;
    [|discriminate].
  destruct (py_in "Time Series (Daily)" data) as [[|]|] eqn:Hin; try discriminate;
    [|left; now injection H as <-].
  destruct (py_getitem W data "Time Series (Daily)") as [ts|] eqn:Hts; [|discriminate].
  destruct (py_keys ts) as [dates|] eqn:Hkeys; [|discriminate].
  destruct (select_window timeframe dates) as [[s e]|] eqn:Hwin; [|discriminate].
  cbn [fst snd] in H.
  destruct (close_on W ts s) as [sp|] eqn:Hs; [|discriminate].
  destruct (close_on W ts e) as [ep|] eqn:He; [|discriminate].
  unfold percent_change, PyNum.truediv, bind in H.
  destruct (PrimFloat.eqb sp 0) eqn:Hz; [discriminate|].
  injection H as <-. right.
  destruct ts as [| | | | | |series]; try discriminate Hkeys.
  cbn [py_keys] in Hkeys. injection Hkeys as <-.
  destruct data as [| | | | | |data]; try discriminate Hts.
  cbn [py_getitem] in Hts.
  destruct (dict_get "Time Series (Daily)" data) as [x|] eqn:Hd; [|discriminate].
  injection Hts as ->.
  destruct (select_window_picks _ _ _ _ Hwin) as [Hin_s Hhd].
  exists data, series, s, e, sp, ep. repeat split; auto.
Qed.

(** X13: a success of [ticker_price_change] always carries the timeframe as
    it was passed, an end date that is the first date of the series, a start
    date that is one of its dates, the two closing prices read at these
    dates, a start price that is not zero, and the change computed from
    exactly these two prices.  Any other value it returns is the error "No
    historical data available" or an error made from an exception.  It
    raises only what the HTTP call raised, and only when that is not an
    instance of [Exception]. *)
Theorem price_change_results W ticker timeframe :
  match ticker_price_change W ticker timeframe with
  | Returns v =>
      (exists data series start_date end_date start_price end_price,
          requests_get_json W (daily_url W ticker) = Returns (PDict data)
          /\ dict_get "Time Series (Daily)" data = Some (PDict series)
          /\ In start_date (dict_keys series)
          /\ hd_error (dict_keys series) = Some end_date
          /\ close_on W (PDict series) start_date = Returns start_price
          /\ close_on W (PDict series) end_date = Returns end_price
          /\ PrimFloat.eqb start_price 0 = false
          /\ v = success_result
                   (price_change_data start_date end_date start_price end_price
                      (PrimFloat.mul
                         (PrimFloat.div (PrimFloat.sub end_price start_price)
                            start_price)
                         100)
                      timeframe))
      \/ v = error_result "No historical data available"
      \/ exists e, v = error_result ("Error calculating price change: " ++ exn_str e)
  | Raises e =>
      exn_is_exception e = false
      /\ requests_get_json W (daily_url W ticker) = Raises e
  end.
Proof.
  unfold ticker_price_change.
  pose proof (try_except_cases (ticker_price_change_body W ticker timeframe)
                "Error calculating price change: ") as Hc.
  destruct (try_except (ticker_price_change_body W ticker timeframe) _) as [v|e].
  - destruct Hc as [Hb|(e & _ & _ & ->)].
    + destruct (ticker_price_change_body_shape W ticker timeframe v Hb) as [H|H]; auto.
    + right. right. now exists e.
  - destruct Hc as [Hb He]. split; [exact He|].
    destruct (ticker_price_change_body_raises W ticker timeframe e Hb) as [Hx|Hp];
      [congruence|exact Hp].
Qed.

(** Two timeframes that choose the same window give the same result, up to
    the timeframe item. *)
Lemma price_change_same_window W ticker tf1 tf2 data series :
  requests_get_json W (daily_url W ticker) = Returns (PDict data) ->
  dict_get "Time Series (Daily)" data = Some (PDict series) ->
  select_window tf1 (dict_keys series) = select_window tf2 (dict_keys series) ->
  ticker_price_change W ticker tf1
  = match ticker_price_change W ticker tf2 with
    | Returns v => Returns (set_timeframe tf1 v)
    | Raises e => Raises e
    end.
Proof.
  intros Hget Hseries Hwin.
  unfold ticker_price_change, ticker_price_change_body, bind, try_except.
  rewrite Hget, (py_in_present _ _ _ Hseries), (py_getitem_present W _ _ _ Hseries).
  cbn [py_keys]. rewrite Hwin.
  destruct (select_window tf2 (dict_keys series)) as [[s e]|e]; [|same_either_way].
  cbn [fst snd].
  destruct (close_on W (PDict series) s) as [sp|e']; [|same_either_way].
  destruct (close_on W (PDict series) e) as [ep|e']; [|same_either_way].
  destruct (percent_change sp ep) as [change|e']; same_either_way.
Qed.

(** X14: on a series of at most eight dates "week" and "month" are the same
    window (both clamp to the oldest date), so the two calls return the same
    dates, prices and change and differ only in the timeframe item. *)
Theorem price_change_week_is_month_when_short W ticker data series :
  requests_get_json W (daily_url W ticker) = Returns (PDict data) ->
  dict_get "Time Series (Daily)" data = Some (PDict series) ->
  List.length series <= 8 ->
  select_window "week" (dict_keys series) = select_window "month" (dict_keys series)
  /\ ticker_price_change W ticker "week"
     = match ticker_price_change W ticker "month" with
       | Returns v => Returns (set_timeframe "week" v)
       | Raises e => Raises e
       end.
Proof.
  intros Hget Hseries Hlen.
  assert (Hwin : select_window "week" (dict_keys series)
                 = select_window "month" (dict_keys series)).
  { unfold select_window. cbn [String.eqb Ascii.eqb Bool.eqb].
    unfold dict_keys. rewrite length_map.
    replace (Z.min 30 (Z.of_nat (List.length series) - 1))
      with (Z.min 7 (Z.of_nat (List.length series) - 1)) by lia.
    reflexivity. }
  split; [exact Hwin|].
  now apply price_change_same_window with (data := data) (series := series).
Qed.

Lemma price_change_week_is_month_when_short_sample :
  ticker_price_change Sample.three_days "TSLA" "week"
  = match ticker_price_change Sample.three_days "TSLA" "month" with
    | Returns v => Returns (set_timeframe "week" v)
    | Raises e => Raises e
    end.
Proof.
  refine (proj2 (price_change_week_is_month_when_short Sample.three_days "TSLA"
                   _ Sample.series3 _ _ _)).
  - reflexivity.
  - reflexivity.
  - cbn. lia.
Defined.

(** X15: on a series with exactly two dates all timeframes use the same
    window, from the second date to the first: "week" (and any other
    timeframe) returns what "today" returns, up to the timeframe item. *)
Theorem price_change_two_dates W ticker timeframe data series :
  requests_get_json W (daily_url W ticker) = Returns (PDict data) ->
  dict_get "Time Series (Daily)" data = Some (PDict series) ->
  List.length series = 2 ->
  ticker_price_change W ticker timeframe
  = match ticker_price_change W ticker "today" with
    | Returns v => Returns (set_timeframe timeframe v)
    | Raises e => Raises e
    end.
Proof.
  intros Hget Hseries Hlen.
  apply price_change_same_window with (data := data) (series := series); auto.
  unfold select_window. cbn [String.eqb Ascii.eqb Bool.eqb].
  unfold dict_keys. rewrite length_map, Hlen.
  destruct (String.eqb timeframe "today"); [reflexivity|].
  destruct (String.eqb timeframe "week"); reflexivity.
Qed.

Lemma price_change_two_dates_sample :
  ticker_price_change
    (Sample2.http (Sample.daily [("2024-01-10", Sample.day "110.0000");
                                 ("2024-01-09", Sample.day "100.0000")]))
    "TSLA" "month"
  = Returns (success_result
               (price_change_data "2024-01-09" "2024-01-10" 100 110 10 "month")).
Proof.
  refine (price_change_two_dates _ "TSLA" "month" _ _ _ _ _).
  - reflexivity.
  - reflexivity.
  - reflexivity.
Defined.

(** X16: on a series with a single date, where "today" fails, every other
    timeframe succeeds with that date as both start and end and its closing
    price as both prices. *)
Theorem price_change_single_date_window W ticker timeframe data date fields close price :
  requests_get_json W (daily_url W ticker) = Returns (PDict data) ->
  dict_get "Time Series (Daily)" data = Some (PDict [(date, PDict fields)]) ->
  dict_get "4. close" fields = Some close -> py_float W close = Returns price ->
  PrimFloat.eqb price 0 = false ->
  timeframe <> "today" ->
  ticker_price_change W ticker timeframe
  = Returns (success_result
               (price_change_data date date price price
                  (PrimFloat.mul
                     (PrimFloat.div (PrimFloat.sub price price) price) 100)
                  timeframe)).
Proof.
  intros Hget Hseries Hclose Hfloat Hnz Htf.
  assert (Hc : close_on W (PDict [(date, PDict fields)]) date = Returns price).
  { apply close_on_item with (i := 0) (fields := fields) (close := close); auto.
    repeat constructor. intros []. }
  eapply price_change_of_window; eauto.
  unfold select_window.
  destruct (String.eqb_spec timeframe "today") as [E|_]; [contradiction|].
  destruct (String.eqb timeframe "week"); reflexivity.
Qed.

Lemma price_change_single_date_window_sample :
  ticker_price_change Sample.one_day "TSLA" "week"
  = Returns (success_result
               (price_change_data "2024-01-10" "2024-01-10" 110 110 0 "week")).
Proof.
  refine (price_change_single_date_window Sample.one_day "TSLA" "week"
            _ "2024-01-10" _ _ 110%float _ _ _ _ _ _).
  - reflexivity.
  - reflexivity.
  - reflexivity.
  - reflexivity.
  - reflexivity.
  - discriminate.
Defined.

(** ** ticker_analysis *)

Lemma price_lines_of_float W price info f timeframe :
  dict_get "status" price = Some (PStr "success") ->
  dict_get "data" price = Some (PDict info) ->
  dict_get "percent_change" info = Some (PFloat f) ->
  dict_get "timeframe" info = Some (PStr timeframe) ->
  price_lines W (PDict price) = Returns [price_sentence f timeframe].
Proof.
  intros Hstatus Hdata Hchange Htf. unfold price_lines, bind.
  rewrite (py_getitem_present W _ _ _ Hstatus), (py_getitem_present W _ _ _ Hdata),
    (py_getitem_present W _ _ _ Hchange), (py_getitem_present W _ _ _ Htf).
  cbn [py_eq_str String.eqb Ascii.eqb Bool.eqb py_gt0 py_abs py_format_2f py_str].
  unfold price_sentence. destruct (PrimFloat.ltb 0 f); reflexivity.
Qed.

Lemma price_lines_of_error W message : price_lines W (error_result message) = Returns [].
Proof. reflexivity. Qed.

Lemma news_lines_of_error W message : news_lines W (error_result message) = Returns [].
Proof. reflexivity. Qed.

(** X17: for a successful price result whose change is a float, the price
    block writes one sentence: "increased" when the change is above zero and
    "decreased" otherwise (zero, negative and NaN alike), followed by the
    absolute value with two decimals and the timeframe string; with a news
    result that is an error the summary is that sentence alone. *)
Theorem analysis_price_sentence W ticker price info f timeframe message :
  dict_get "status" price = Some (PStr "success") ->
  dict_get "data" price = Some (PDict info) ->
  dict_get "percent_change" info = Some (PFloat f) ->
  dict_get "timeframe" info = Some (PStr timeframe) ->
  price_lines W (PDict price) = Returns [price_sentence f timeframe]
  /\ ticker_analysis W ticker (error_result message) (PDict price)
     = Returns (success_result
                  (PDict [("analysis", PStr (price_sentence f timeframe))])).
Proof.
  intros Hstatus Hdata Hchange Htf.
  pose proof (price_lines_of_float W price info f timeframe Hstatus Hdata Hchange Htf)
    as Hp.
  split; [exact Hp|].
  now rewrite (analysis_of_lines W ticker _ _ _ Hp), news_lines_of_error.
Qed.

Lemma analysis_price_sentence_sample :
  ticker_analysis Sample.offline "TSLA" (error_result "Error fetching news: timeout")
    (success_result
       (price_change_data "2024-01-02" "2024-01-10" 200 195 (-2.5) "week"))
  = Returns (success_result
               (PDict [("analysis",
                        PStr "The stock has decreased by 2.50% over week.")])).
Proof.
  refine (proj2 (analysis_price_sentence Sample.offline "TSLA" _ _ (-2.5)%float "week"
                   "Error fetching news: timeout" _ _ _ _)).
  - reflexivity.
  - reflexivity.
  - reflexivity.
  - reflexivity.
Defined.

(** X18: inputs whose status is anything but "success" contribute nothing:
    the tool still returns a success, with an empty text, and the error
    messages of the two inputs appear nowhere in it. *)
Theorem analysis_of_failed_inputs W ticker news price news_status price_status :
  dict_get "status" news = Some news_status ->
  py_eq_str news_status "success" = false ->
  dict_get "status" price = Some price_status ->
  py_eq_str price_status "success" = false ->
  ticker_analysis W ticker (PDict news) (PDict price)
  = Returns (success_result (PDict [("analysis", PStr "")])).
Proof.
  intros Hn Hns Hp Hps.
  assert (Hpl : price_lines W (PDict price) = Returns []).
  { unfold price_lines, bind. now rewrite (py_getitem_present W _ _ _ Hp), Hps. }
  rewrite (analysis_of_lines W ticker _ _ _ Hpl).
  unfold news_lines, bind. now rewrite (py_getitem_present W _ _ _ Hn), Hns.
Qed.

Lemma analysis_of_failed_inputs_sample :
  ticker_analysis Sample.offline "TSLA"
    (error_result "Error fetching news: connection refused")
    (error_result "No historical data available")
  = Returns (success_result (PDict [("analysis", PStr "")])).
Proof.
  refine (analysis_of_failed_inputs Sample.offline "TSLA" _ _
            (PStr "error") (PStr "error") _ _ _ _).
  - reflexivity.
  - reflexivity.
  - reflexivity.
  - reflexivity.
Defined.

Lemma bullet_of_title W article title :
  title_of article = Some title ->
  bullet W article = Returns ("- " ++ py_str W title).
Proof.
  destruct article as [| | | | | |d]; try discriminate. cbn [title_of]. intros H.
  unfold bullet, bind. now rewrite (py_getitem_present W _ _ _ H).
Qed.

Lemma bullets_of_titles W articles titles :
  Forall2 (fun a t => title_of a = Some t) articles titles ->
  map_m (bullet W) articles = Returns (map (fun t => "- " ++ py_str W t) titles).
Proof.
  induction 1 as [|a t l ts Ht _ IH]; [reflexivity|].
  cbn [map_m map]. unfold bind. unfold bind in IH.
  now rewrite (bullet_of_title W a t Ht), IH.
Qed.

(** X19: for a news success holding a non-empty list whose first three
    articles (or all of them, when there are fewer) are dictionaries with a
    title, the news block writes the header and one bullet per title, in
    order: as many bullets as articles, and never more than three. *)
Theorem news_bullets W news articles titles :
  dict_get "status" news = Some (PStr "success") ->
  dict_get "data" news = Some (PList articles) ->
  articles <> [] ->
  Forall2 (fun a t => title_of a = Some t) (firstn 3 articles) titles ->
  news_lines W (PDict news)
  = Returns (news_header :: map (fun t => "- " ++ py_str W t) titles)
  /\ List.length titles = Nat.min 3 (List.length articles).
Proof.
  intros Hstatus Hdata Hne Htitles. split.
  - unfold news_lines, bind.
    rewrite (py_getitem_present W _ _ _ Hstatus), (py_getitem_present W _ _ _ Hdata).
    cbn [py_eq_str String.eqb Ascii.eqb Bool.eqb py_len py_slice_to].
    destruct articles as [|a l]; [contradiction|].
    cbn [List.length Z.of_nat Z.ltb Z.compare].
    pose proof (bullets_of_titles W _ _ Htitles) as Hb. unfold bind in Hb.
    now rewrite Hb.
  - rewrite <- (Forall2_length Htitles). apply length_firstn.
Qed.

Lemma news_bullets_sample :
  news_lines Sample.offline
    (success_result (PList [Sample.article "One"; Sample.article "Two"]))
  = Returns [news_header; "- One"; "- Two"].
Proof.
  refine (proj1 (news_bullets Sample.offline _
                   [Sample.article "One"; Sample.article "Two"]
                   [PStr "One"; PStr "Two"] _ _ _ _)).
  - reflexivity.
  - reflexivity.
  - discriminate.
  - repeat constructor.
Defined.

Lemma bullets_stop_at_failure W before article after e :
  Forall titled before ->
  bullet W article = Raises e ->
  map_m (bullet W) (before ++ article :: after)%list = Raises e.
Proof.
  intros Hbefore Hfail.
  induction Hbefore as [|a l (d & t & -> & Ht) _ IH]; cbn [app map_m]; unfold bind.
  - now rewrite Hfail.
  - unfold bullet at 1, bind. rewrite (py_getitem_present W _ _ _ Ht).
    unfold bind in IH. now rewrite IH.
Qed.

(** X20: the summary is all or nothing.  When one of the first three
    articles is a dictionary without a title, the tool returns the error made
    from the [KeyError], even though the price block and the earlier bullets
    had been written. *)
Theorem analysis_untitled_article
    W ticker news price articles before d after from_price :
  dict_get "status" news = Some (PStr "success") ->
  dict_get "data" news = Some (PList articles) ->
  firstn 3 articles = (before ++ PDict d :: after)%list ->
  Forall titled before ->
  dict_get "title" d = None ->
  price_lines W price = Returns from_price ->
  ticker_analysis W ticker (PDict news) price
  = Returns (error_result ("Error in analysis: " ++ py_repr W (PStr "title"))).
Proof.
  intros Hstatus Hdata Hfirst Hbefore Hd Hp.
  rewrite (analysis_of_lines W ticker _ _ _ Hp).
  unfold news_lines, bind.
  rewrite (py_getitem_present W _ _ _ Hstatus), (py_getitem_present W _ _ _ Hdata).
  cbn [py_eq_str String.eqb Ascii.eqb Bool.eqb py_len py_slice_to].
  destruct articles as [|a l].
  { destruct before; discriminate Hfirst. }
  cbn [List.length Z.of_nat Z.ltb Z.compare]. rewrite Hfirst.
  assert (Hfail : bullet W (PDict d) = Raises (KeyError (py_repr W (PStr "title")))).
  { unfold bullet, bind. cbn [py_getitem]. now rewrite Hd. }
  pose proof (bullets_stop_at_failure W before (PDict d) after _ Hbefore Hfail) as Hb.
  unfold bind in Hb. now rewrite Hb.
Qed.

Lemma analysis_untitled_article_sample :
  ticker_analysis Sample.offline "TSLA"
    (success_result
       (PList [Sample.article "One"; PDict [("url", PStr "https://example.org")]]))
    Sample.flat_today
  = Returns (error_result "Error in analysis: 'title'").
Proof.
  refine (analysis_untitled_article Sample.offline "TSLA" _ Sample.flat_today
            [Sample.article "One"; PDict [("url", PStr "https://example.org")]]
            [Sample.article "One"] [("url", PStr "https://example.org")] []
            ["The stock has decreased by 0.00% over today."] _ _ _ _ _ _).
  - reflexivity.
  - reflexivity.
  - reflexivity.
  - repeat constructor. eexists _, _. split; reflexivity.
  - reflexivity.
  - reflexivity.
Defined.

(** X21: the result of [ticker_price] is not a price input for the analysis.
    A success of [ticker_price] has no "percent_change", so the price block
    raises [KeyError] on it and the tool returns the error made from it,
    whatever the news. *)
Theorem analysis_rejects_quote W ticker news_data data :
  ticker_price W ticker = Returns (success_result data) ->
  ticker_analysis W ticker news_data (success_result data)
  = Returns (error_result
               ("Error in analysis: " ++ py_repr W (PStr "percent_change"))).
Proof.
  unfold ticker_price. intros H.
  pose proof (try_except_cases (ticker_price_body W ticker) "Error fetching price: ")
    as Hc.
  rewrite H in Hc. destruct Hc as [Hb|(e & _ & _ & Hv)]; [|discriminate Hv].
  destruct (ticker_price_body_shape W ticker _ Hb)
    as [(price & volume & day & previous & Hv)|Hv]; [|discriminate Hv].
  injection Hv as ->. reflexivity.
Qed.

Lemma analysis_rejects_quote_sample :
  ticker_analysis
    (Sample2.http (Sample2.quote "250.5000" "1200300" "2024-01-10" "245.0000"))
    "TSLA" Sample.five_articles
    (success_result (quote_data 250.5 1200300 (PStr "2024-01-10") 245))
  = Returns (error_result "Error in analysis: 'percent_change'").
Proof.
  refine (analysis_rejects_quote _ "TSLA" Sample.five_articles _ _).
  reflexivity.
Defined.

(** X22: whatever [ticker_price_change] returns is a price input the
    analysis accepts.  For an error the price block writes no line, and with
    a news result that is an error the summary is the empty text; for a
    success the price block writes exactly the sentence for the change and
    the timeframe of that result, and the summary is that sentence. *)
Theorem analysis_accepts_price_change W ticker timeframe v message :
  ticker_price_change W ticker timeframe = Returns v ->
  (exists m,
      v = error_result m
      /\ price_lines W v = Returns []
      /\ ticker_analysis W ticker (error_result message) v
         = Returns (success_result (PDict [("analysis", PStr "")])))
  \/ (exists start_date end_date start_price end_price change,
         v = success_result
               (price_change_data start_date end_date start_price end_price
                  change timeframe)
         /\ price_lines W v = Returns [price_sentence change timeframe]
         /\ ticker_analysis W ticker (error_result message) v
            = Returns (success_result
                         (PDict [("analysis",
                                  PStr (price_sentence change timeframe))]))).
Proof.
  unfold ticker_price_change. intros H.
  pose proof (try_except_cases (ticker_price_change_body W ticker timeframe)
                "Error calculating price change: ") as Hc.
  rewrite H in Hc.
  assert (Herr : forall m,
             v = error_result m ->
             exists m,
               v = error_result m
               /\ price_lines W v = Returns []
               /\ ticker_analysis W ticker (error_result message) v
                  = Returns (success_result (PDict [("analysis", PStr "")]))).
  { intros m ->. exists m. repeat split. }
  destruct Hc as [Hb|(e & _ & _ & Hv)]; [|left; eapply Herr; eauto].
  destruct (ticker_price_change_body_shape W ticker timeframe v Hb)
    as [Hv|(data & series & s & e & sp & ep & _ & _ & _ & _ & _ & _ & _ & ->)];
    [left; eapply Herr; eauto|].
  right.
  exists s, e, sp, ep,
    (PrimFloat.mul (PrimFloat.div (PrimFloat.sub ep sp) sp) 100).
  assert (Hp : price_lines W
                 (success_result
                    (price_change_data s e sp ep
                       (PrimFloat.mul (PrimFloat.div (PrimFloat.sub ep sp) sp) 100)
                       timeframe))
               = Returns [price_sentence
                            (PrimFloat.mul (PrimFloat.div (PrimFloat.sub ep sp) sp) 100)
                            timeframe]).
  { eapply price_lines_of_float; reflexivity. }
  repeat split; [exact Hp|].
  now rewrite (analysis_of_lines W ticker _ _ _ Hp), news_lines_of_error.
Qed.

Lemma analysis_accepts_price_change_sample :
  ticker_analysis Sample.three_days "TSLA" (error_result "no news")
    (success_result (price_change_data "2024-01-09" "2024-01-10" 100 110 10 "today"))
  = Returns (success_result
               (PDict [("analysis",
                        PStr "The stock has increased by 10.00% over today.")])).
Proof.
  destruct (analysis_accepts_price_change Sample.three_days "TSLA" "today"
              (success_result
                 (price_change_data "2024-01-09" "2024-01-10" 100 110 10 "today"))
              "no news" eq_refl)
    as [(m & Hv & _)|(s & e & sp & ep & change & Hv & _ & Ha)].
  - discriminate Hv.
  - injection Hv as <- <- <- <- <-. exact Ha.
Defined.
